(** * The rover controller of [jetson/nav/rover.cpp]

    A shallow embedding of [Rover::RoverStatus], [Rover::drive],
    [Rover::turn], [Rover::stop] and [Rover::updateRover], and the properties
    of the controller that the specification states about them.

    Conventions of the embedding.
    - A C++ [double] is a rational number ([Q]): comparisons and the
      arithmetic of the controller are exact; rounding, infinities and NaN
      are outside the model.  [==] and [!=] on doubles are [Qeq_bool] and its
      negation, [<] is [Qltb].
    - A C++ [int] is an integer ([Z]).  Incrementing an [int] that holds
      [INT_MAX] is undefined behaviour, and so is [front()] on an empty deque
      and indexing a vector past its end: the embedding makes these explicit
      as the [UB] outcome of a computation.
    - Member functions of [Rover] are computations over the state of the
      object ([M]): they read and write the members, append to the LCM
      channel and to the console, and return a value.
    - Code of the repository that is used by [rover.cpp] but lives in other
      files ([PidLoop], [mod], [throughZero], [degreeToRadian]) is the
      interface [Externals]; the overloads of [drive] and [turn] that only
      call the geodetic helpers and delegate are left out.
    - A block of [updateRover] that the source introduces with a comment of
      its own is a definition of its own here, named after the comment and
      marked with the lines it embeds. *)

From Stdlib Require Import ZArith QArith Qabs Qround Qminmax Bool String List Lia Lqa.
Import ListNotations.

Set Implicit Arguments.

(** ** Numbers *)

(** [a < b] on doubles. *)
Definition Qltb (x y : Q) : bool :=
match (x ?= y)%Q with
| Lt => true
| _ => false
end.

(** [std::min], as the C++ standard library defines it. *)
Definition std_min (a b : Q) : Q := if Qltb b a then b else a.

(** [std::max], as the C++ standard library defines it. *)
Definition std_max (a b : Q) : Q := if Qltb a b then b else a.

(** [fabs]. *)
Definition fabs (x : Q) : Q := Qabs x.

(** The largest value of a C++ [int] on the target. *)
Definition INT_MAX : Z := 2147483647.

(** The modulus of [unsigned] arithmetic. *)
Definition UINT_MODULUS : Z := 4294967296.

(** ** Messages, states and configuration

    The declarations of the message types ([rover_msgs]), of [NavState] and
    [DriveStatus] ([rover.hpp]) and the layout of the configuration file are
    not in [rover.cpp]; each is modelled from the specification and from
    the members that [rover.cpp] reads and writes. *)

Module AutonState.
(** Modelled from the spec: the auton state, a flag "autonomy enabled";
    [rover.cpp] reads it as [is_auton]. *)
Record t := { is_auton : bool }.
End AutonState.

Module Odometry.
(** Modelled from the spec: latitude and longitude in degrees and minutes
    and the heading in degrees, under the names that [isEqual] compares. *)
Record t := {
  latitude_deg : Z;
  latitude_min : Q;
  longitude_deg : Z;
  longitude_min : Q;
  bearing_deg : Q
}.
End Odometry.

Module Target.
(** Modelled from the spec: [{distance, bearing, id}], in the order in
    which the constructor of [RoverStatus] lists them; a distance equal to
    the configured sentinel means that nothing is detected. *)
Record t := { distance : Q; bearing : Q; id : Z }.
End Target.

Module Obstacle.
(** Modelled from the spec: a bearing and a distance, and an id that
    equality does not use.  The constructor writes the empty obstacle as
    [{0, 0, -1.0}], the distance last. *)
Record t := { id : Z; bearing : Q; distance : Q }.
End Obstacle.

Module Waypoint.
(** Modelled from the spec: a waypoint with its flags [search] and [gate];
    [rover.cpp] also reads its [id]. *)
Record t := { search : bool; gate : bool; id : Z; odom : Odometry.t }.
End Waypoint.

Module Course.
(** Modelled from the spec: an ordered sequence of waypoints.  [operator=]
    reads it as an LCM message with a variable-length array: the count
    [num_waypoints] is a field of its own next to the vector [waypoints]. *)
Record t := { num_waypoints : Z; waypoints : list Waypoint.t }.
End Course.

Module AutonDriveControl.
(** Modelled from the spec: the outbound wheel-velocity command, with the
    two fields that [publishAutonDriveCmd] fills in. *)
Record t := { left_percent_velocity : Q; right_percent_velocity : Q }.
End AutonDriveControl.

(** Modelled from the spec: the navigation state, an enumeration owned by
    the external state machine.  [rover.cpp] names three of its values;
    every other one is an [OtherState]. *)
Inductive NavState :=
| Off
| TurnAroundObs
| SearchTurnAroundObs
| OtherState (tag : nat).

(** Modelled from the spec: the three outcomes of [drive]. *)
Inductive DriveStatus := Arrived | OnCourse | OffCourse.

(** Modelled from the spec: the keys of the configuration under
    [navThresholds], each read with [GetDouble()]. *)
Record NavThresholds := {
  waypointDistance : Q;
  targetDistance : Q;
  drivingBearing : Q;
  turningBearing : Q;
  minTurningEffort : Q;
  noTargetDist : Q;
  cacheMissMax : Q
}.

(** Modelled from the spec: the configuration [mRoverConfig], with the
    thresholds and the name of the outbound channel. *)
Record RoverConfig := {
  navThresholds : NavThresholds;
  autonDriveControlChannel : string
}.

(** ** Rover status *)

(** The members of [Rover::RoverStatus], under the names that [rover.cpp]
    gives them. *)
Record RoverStatus := {
  mCurrentState : NavState;
  mAutonState : AutonState.t;
  mCourse : Course.t;
  mPath : list Waypoint.t;
  mObstacle : Obstacle.t;
  mOdometry : Odometry.t;
  mTargetLeft : Target.t;
  mTargetRight : Target.t;
  mCTargetLeft : Target.t;
  mCTargetRight : Target.t;
  mPathTargets : Z;
  countLeftMisses : Z;
  countRightMisses : Z;
  countLeftHits : Z;
  countRightHits : Z
}.

(** [{-1, 0, 0}]: the empty target. *)
Definition emptyTarget : Target.t :=
{| Target.distance := -1; Target.bearing := 0; Target.id := 0 |}.

(** Assignments through the reference-returning accessors. *)

Definition set_autonState (v : AutonState.t) (s : RoverStatus) : RoverStatus :=
{| mCurrentState := mCurrentState s; mAutonState := v; mCourse := mCourse s;
   mPath := mPath s; mObstacle := mObstacle s; mOdometry := mOdometry s;
   mTargetLeft := mTargetLeft s; mTargetRight := mTargetRight s;
   mCTargetLeft := mCTargetLeft s; mCTargetRight := mCTargetRight s;
   mPathTargets := mPathTargets s;
   countLeftMisses := countLeftMisses s; countRightMisses := countRightMisses s;
   countLeftHits := countLeftHits s; countRightHits := countRightHits s |}.

Definition set_course (v : Course.t) (s : RoverStatus) : RoverStatus :=
{| mCurrentState := mCurrentState s; mAutonState := mAutonState s; mCourse := v;
   mPath := mPath s; mObstacle := mObstacle s; mOdometry := mOdometry s;
   mTargetLeft := mTargetLeft s; mTargetRight := mTargetRight s;
   mCTargetLeft := mCTargetLeft s; mCTargetRight := mCTargetRight s;
   mPathTargets := mPathTargets s;
   countLeftMisses := countLeftMisses s; countRightMisses := countRightMisses s;
   countLeftHits := countLeftHits s; countRightHits := countRightHits s |}.

Definition set_path (v : list Waypoint.t) (s : RoverStatus) : RoverStatus :=
{| mCurrentState := mCurrentState s; mAutonState := mAutonState s; mCourse := mCourse s;
   mPath := v; mObstacle := mObstacle s; mOdometry := mOdometry s;
   mTargetLeft := mTargetLeft s; mTargetRight := mTargetRight s;
   mCTargetLeft := mCTargetLeft s; mCTargetRight := mCTargetRight s;
   mPathTargets := mPathTargets s;
   countLeftMisses := countLeftMisses s; countRightMisses := countRightMisses s;
   countLeftHits := countLeftHits s; countRightHits := countRightHits s |}.

Definition set_obstacle (v : Obstacle.t) (s : RoverStatus) : RoverStatus :=
{| mCurrentState := mCurrentState s; mAutonState := mAutonState s; mCourse := mCourse s;
   mPath := mPath s; mObstacle := v; mOdometry := mOdometry s;
   mTargetLeft := mTargetLeft s; mTargetRight := mTargetRight s;
   mCTargetLeft := mCTargetLeft s; mCTargetRight := mCTargetRight s;
   mPathTargets := mPathTargets s;
   countLeftMisses := countLeftMisses s; countRightMisses := countRightMisses s;
   countLeftHits := countLeftHits s; countRightHits := countRightHits s |}.

Definition set_odometry (v : Odometry.t) (s : RoverStatus) : RoverStatus :=
{| mCurrentState := mCurrentState s; mAutonState := mAutonState s; mCourse := mCourse s;
   mPath := mPath s; mObstacle := mObstacle s; mOdometry := v;
   mTargetLeft := mTargetLeft s; mTargetRight := mTargetRight s;
   mCTargetLeft := mCTargetLeft s; mCTargetRight := mCTargetRight s;
   mPathTargets := mPathTargets s;
   countLeftMisses := countLeftMisses s; countRightMisses := countRightMisses s;
   countLeftHits := countLeftHits s; countRightHits := countRightHits s |}.

Definition set_leftTarget (v : Target.t) (s : RoverStatus) : RoverStatus :=
{| mCurrentState := mCurrentState s; mAutonState := mAutonState s; mCourse := mCourse s;
   mPath := mPath s; mObstacle := mObstacle s; mOdometry := mOdometry s;
   mTargetLeft := v; mTargetRight := mTargetRight s;
   mCTargetLeft := mCTargetLeft s; mCTargetRight := mCTargetRight s;
   mPathTargets := mPathTargets s;
   countLeftMisses := countLeftMisses s; countRightMisses := countRightMisses s;
   countLeftHits := countLeftHits s; countRightHits := countRightHits s |}.

Definition set_rightTarget (v : Target.t) (s : RoverStatus) : RoverStatus :=
{| mCurrentState := mCurrentState s; mAutonState := mAutonState s; mCourse := mCourse s;
   mPath := mPath s; mObstacle := mObstacle s; mOdometry := mOdometry s;
   mTargetLeft := mTargetLeft s; mTargetRight := v;
   mCTargetLeft := mCTargetLeft s; mCTargetRight := mCTargetRight s;
   mPathTargets := mPathTargets s;
   countLeftMisses := countLeftMisses s; countRightMisses := countRightMisses s;
   countLeftHits := countLeftHits s; countRightHits := countRightHits s |}.

Definition set_leftCacheTarget (v : Target.t) (s : RoverStatus) : RoverStatus :=
{| mCurrentState := mCurrentState s; mAutonState := mAutonState s; mCourse := mCourse s;
   mPath := mPath s; mObstacle := mObstacle s; mOdometry := mOdometry s;
   mTargetLeft := mTargetLeft s; mTargetRight := mTargetRight s;
   mCTargetLeft := v; mCTargetRight := mCTargetRight s;
   mPathTargets := mPathTargets s;
   countLeftMisses := countLeftMisses s; countRightMisses := countRightMisses s;
   countLeftHits := countLeftHits s; countRightHits := countRightHits s |}.

Definition set_rightCacheTarget (v : Target.t) (s : RoverStatus) : RoverStatus :=
{| mCurrentState := mCurrentState s; mAutonState := mAutonState s; mCourse := mCourse s;
   mPath := mPath s; mObstacle := mObstacle s; mOdometry := mOdometry s;
   mTargetLeft := mTargetLeft s; mTargetRight := mTargetRight s;
   mCTargetLeft := mCTargetLeft s; mCTargetRight := v;
   mPathTargets := mPathTargets s;
   countLeftMisses := countLeftMisses s; countRightMisses := countRightMisses s;
   countLeftHits := countLeftHits s; countRightHits := countRightHits s |}.

Definition set_pathTargets (v : Z) (s : RoverStatus) : RoverStatus :=
{| mCurrentState := mCurrentState s; mAutonState := mAutonState s; mCourse := mCourse s;
   mPath := mPath s; mObstacle := mObstacle s; mOdometry := mOdometry s;
   mTargetLeft := mTargetLeft s; mTargetRight := mTargetRight s;
   mCTargetLeft := mCTargetLeft s; mCTargetRight := mCTargetRight s;
   mPathTargets := v;
   countLeftMisses := countLeftMisses s; countRightMisses := countRightMisses s;
   countLeftHits := countLeftHits s; countRightHits := countRightHits s |}.

Definition set_leftMisses (v : Z) (s : RoverStatus) : RoverStatus :=
{| mCurrentState := mCurrentState s; mAutonState := mAutonState s; mCourse := mCourse s;
   mPath := mPath s; mObstacle := mObstacle s; mOdometry := mOdometry s;
   mTargetLeft := mTargetLeft s; mTargetRight := mTargetRight s;
   mCTargetLeft := mCTargetLeft s; mCTargetRight := mCTargetRight s;
   mPathTargets := mPathTargets s;
   countLeftMisses := v; countRightMisses := countRightMisses s;
   countLeftHits := countLeftHits s; countRightHits := countRightHits s |}.

Definition set_rightMisses (v : Z) (s : RoverStatus) : RoverStatus :=
{| mCurrentState := mCurrentState s; mAutonState := mAutonState s; mCourse := mCourse s;
   mPath := mPath s; mObstacle := mObstacle s; mOdometry := mOdometry s;
   mTargetLeft := mTargetLeft s; mTargetRight := mTargetRight s;
   mCTargetLeft := mCTargetLeft s; mCTargetRight := mCTargetRight s;
   mPathTargets := mPathTargets s;
   countLeftMisses := countLeftMisses s; countRightMisses := v;
   countLeftHits := countLeftHits s; countRightHits := countRightHits s |}.

Definition set_leftHits (v : Z) (s : RoverStatus) : RoverStatus :=
{| mCurrentState := mCurrentState s; mAutonState := mAutonState s; mCourse := mCourse s;
   mPath := mPath s; mObstacle := mObstacle s; mOdometry := mOdometry s;
   mTargetLeft := mTargetLeft s; mTargetRight := mTargetRight s;
   mCTargetLeft := mCTargetLeft s; mCTargetRight := mCTargetRight s;
   mPathTargets := mPathTargets s;
   countLeftMisses := countLeftMisses s; countRightMisses := countRightMisses s;
   countLeftHits := v; countRightHits := countRightHits s |}.

Definition set_rightHits (v : Z) (s : RoverStatus) : RoverStatus :=
{| mCurrentState := mCurrentState s; mAutonState := mAutonState s; mCourse := mCourse s;
   mPath := mPath s; mObstacle := mObstacle s; mOdometry := mOdometry s;
   mTargetLeft := mTargetLeft s; mTargetRight := mTargetRight s;
   mCTargetLeft := mCTargetLeft s; mCTargetRight := mCTargetRight s;
   mPathTargets := mPathTargets s;
   countLeftMisses := countLeftMisses s; countRightMisses := countRightMisses s;
   countLeftHits := countLeftHits s; countRightHits := v |}.

(** ** What [rover.cpp] takes from the rest of the repository *)

(** Taken as parameters, their code being in other files of the
    repository: [PidLoop] with [update(current, desired)], which returns the
    effort and changes the state of the loop; [mod(degree, modulus)] and
    [throughZero(destinationBearing, currentBearing)] of [utilities.hpp],
    the latter as the value it leaves in its first (by-reference) argument;
    [EARTH_CIRCUM] and the cosine of [degreeToRadian(deg, min)]. *)
Class Externals := {
  PidLoop : Type;
  PidLoop_update : PidLoop -> Q -> Q -> Q * PidLoop;
  mod_ : Q -> Z -> Q;
  throughZero : Q -> Q -> Q;
  EARTH_CIRCUM : Q;
  cos_degreeToRadian : Z -> Q -> Q
}.

(** ** Computations with state and undefined behaviour *)

Inductive Undefined := FrontOfEmptyDeque | SignedOverflow | IndexOutOfRange.

Inductive result (A : Type) :=
| Ok (a : A)
| UB (why : Undefined).

Arguments UB {A} why.

Definition Comp (S A : Type) : Type := S -> result (A * S).

Definition ret {S A} (a : A) : Comp S A := fun r => Ok (a, r).

Definition bind {S A B} (m : Comp S A) (k : A -> Comp S B) : Comp S B :=
fun r =>
  match m r with
  | Ok (a, r') => k a r'
  | UB why => UB why
  end.

Definition undefined {S A} (why : Undefined) : Comp S A := fun _ => UB why.

Notation "x <- m ;; k" := (bind m (fun x => k))
  (at level 61, m at next level, right associativity).
Notation "m ;; k" := (bind m (fun _ => k))
  (at level 61, right associativity).

(** What a statement writes to [std::cout] or [std::cerr]; the text of a
    string literal is kept as the source spells it. *)
Inductive Item := Str (s : string) | Num (q : Q) | Endl.

Inductive Stream := Cout | Cerr.

Section Controller.

Context {ext : Externals}.

(** ** The state of a [Rover] *)

(** The members of [Rover] that change, and what the object has sent to
    the LCM channel and to the console so far. *)
Record Rover := {
  mRoverStatus : RoverStatus;
  mBearingPid : PidLoop;
  mLongMeterInMinutes : Q;
  lcm_published : list (string * AutonDriveControl.t);
  console : list (Stream * list Item)
}.

Definition M (A : Type) : Type := Comp Rover A.

Definition set_roverStatus (s : RoverStatus) (r : Rover) : Rover :=
{| mRoverStatus := s;
   mBearingPid := mBearingPid r;
   mLongMeterInMinutes := mLongMeterInMinutes r;
   lcm_published := lcm_published r;
   console := console r |}.

Definition set_bearingPid (pid : PidLoop) (r : Rover) : Rover :=
{| mRoverStatus := mRoverStatus r;
   mBearingPid := pid;
   mLongMeterInMinutes := mLongMeterInMinutes r;
   lcm_published := lcm_published r;
   console := console r |}.

Definition set_longMeterInMinutes (v : Q) (r : Rover) : Rover :=
{| mRoverStatus := mRoverStatus r;
   mBearingPid := mBearingPid r;
   mLongMeterInMinutes := v;
   lcm_published := lcm_published r;
   console := console r |}.

Definition add_published (m : string * AutonDriveControl.t) (r : Rover) : Rover :=
{| mRoverStatus := mRoverStatus r;
   mBearingPid := mBearingPid r;
   mLongMeterInMinutes := mLongMeterInMinutes r;
   lcm_published := lcm_published r ++ [m];
   console := console r |}.

Definition add_console (line : Stream * list Item) (r : Rover) : Rover :=
{| mRoverStatus := mRoverStatus r;
   mBearingPid := mBearingPid r;
   mLongMeterInMinutes := mLongMeterInMinutes r;
   lcm_published := lcm_published r;
   console := console r ++ [line] |}.

Definition gets {A} (f : RoverStatus -> A) : M A :=
fun r => Ok (f (mRoverStatus r), r).

Definition modify_rover (f : Rover -> Rover) : M unit := fun r => Ok (tt, f r).

Definition modify (f : RoverStatus -> RoverStatus) : M unit :=
modify_rover (fun r => set_roverStatus (f (mRoverStatus r)) r).

(** [n++] on an [int] member: undefined when [n] is [INT_MAX]. *)
Definition increment (get : RoverStatus -> Z)
  (set : Z -> RoverStatus -> RoverStatus) : M unit :=
n <- gets get ;;
if (n <? INT_MAX)%Z then modify (set (n + 1)%Z) else undefined SignedOverflow.

(** [std::cout << ...] and [std::cerr << ...]: one entry per statement. *)
Definition print (to : Stream) (items : list Item) : M unit :=
modify_rover (add_console (to, items)).

(** [mBearingPid.update( current, desired )]. *)
Definition bearingPid_update (current desired : Q) : M Q :=
fun r =>
  let (effort, pid) := PidLoop_update (mBearingPid r) current desired in
  Ok (effort, set_bearingPid pid r).

Variable mRoverConfig : RoverConfig.

Definition nav : NavThresholds := navThresholds mRoverConfig.

(** [Rover::publishAutonDriveCmd], lines 393-401. *)
Definition publishAutonDriveCmd (leftVel rightVel : Q) : M unit :=
let driveControl :=
  {| AutonDriveControl.left_percent_velocity := leftVel;
     AutonDriveControl.right_percent_velocity := rightVel |} in
modify_rover (add_published (autonDriveControlChannel mRoverConfig, driveControl)).

(** ** [Rover::RoverStatus::operator=], lines 107-134 *)

(** [while( !mPath.empty() ) mPath.pop_front();] *)
Fixpoint pop_all (path : list Waypoint.t) : list Waypoint.t :=
match path with
| [] => []
| _ :: rest => pop_all rest
end.

(** The [for] loop over [mCourse.waypoints], with [remaining] iterations
    left and the next one at [courseIndex]; [mPathTargets] is [unsigned]. *)
Fixpoint push_waypoints (remaining courseIndex : nat) : M unit :=
match remaining with
| O => ret tt
| S remaining' =>
    course <- gets mCourse ;;
    match nth_error (Course.waypoints course) courseIndex with
    | None => undefined IndexOutOfRange
    | Some wp =>
        modify (fun s => set_path (mPath s ++ [wp]) s) ;;
        (if Waypoint.search wp || Waypoint.gate wp
         then modify (fun s =>
                set_pathTargets ((mPathTargets s + 1) mod UINT_MODULUS)%Z s)
         else ret tt) ;;
        push_waypoints remaining' (S courseIndex)
    end
end.

(** [operator=( newRoverStatus )], on [mRoverStatus]: the assignments of
    lines 109-132 in their order. *)
Definition RoverStatus_assign (newRoverStatus : RoverStatus) : M unit :=
modify (set_autonState (mAutonState newRoverStatus)) ;;
modify (set_course (mCourse newRoverStatus)) ;;
modify (set_pathTargets 0) ;;
modify (fun s => set_path (pop_all (mPath s)) s) ;;
course <- gets mCourse ;;
push_waypoints (Z.to_nat (Course.num_waypoints course)) 0 ;;
modify (set_obstacle (mObstacle newRoverStatus)) ;;
modify (set_odometry (mOdometry newRoverStatus)) ;;
modify (set_leftTarget (mTargetLeft newRoverStatus)) ;;
modify (set_rightTarget (mTargetRight newRoverStatus)) ;;
modify (set_leftCacheTarget (mCTargetLeft newRoverStatus)) ;;
modify (set_rightCacheTarget (mCTargetRight newRoverStatus)) ;;
modify (set_leftMisses (countLeftMisses newRoverStatus)) ;;
modify (set_rightMisses (countRightMisses newRoverStatus)).

(** ** [Rover::isEqual] and [Rover::isTurningAroundObstacle] *)

(** [isEqual( Obstacle, Obstacle )], lines 405-413. *)
Definition isEqual_Obstacle (obstacle1 obstacle2 : Obstacle.t) : bool :=
Qeq_bool (Obstacle.distance obstacle1) (Obstacle.distance obstacle2) &&
Qeq_bool (Obstacle.bearing obstacle1) (Obstacle.bearing obstacle2).

(** [isEqual( Odometry, Odometry )], lines 417-428. *)
Definition isEqual_Odometry (odometry1 odometry2 : Odometry.t) : bool :=
(Odometry.latitude_deg odometry1 =? Odometry.latitude_deg odometry2)%Z &&
Qeq_bool (Odometry.latitude_min odometry1) (Odometry.latitude_min odometry2) &&
(Odometry.longitude_deg odometry1 =? Odometry.longitude_deg odometry2)%Z &&
Qeq_bool (Odometry.longitude_min odometry1) (Odometry.longitude_min odometry2) &&
Qeq_bool (Odometry.bearing_deg odometry1) (Odometry.bearing_deg odometry2).

(** [isEqual( Target, Target )], lines 432-440: the id is not compared. *)
Definition isEqual_Target (target target2 : Target.t) : bool :=
Qeq_bool (Target.distance target) (Target.distance target2) &&
Qeq_bool (Target.bearing target) (Target.bearing target2).

(** [isTurningAroundObstacle( currentState )], lines 444-452. *)
Definition isTurningAroundObstacle (currentState : NavState) : bool :=
match currentState with
| TurnAroundObs | SearchTurnAroundObs => true
| _ => false
end.

(** ** [Rover::drive] *)

(** [drive( distance, bearing, target )], lines 168-195. *)
Definition drive (distance bearing : Q) (target : bool) : M DriveStatus :=
if (negb target && Qltb distance (waypointDistance nav)) ||
   (target && Qltb distance (targetDistance nav))
then ret Arrived
else
  heading <- gets (fun s => Odometry.bearing_deg (mOdometry s)) ;;
  let destinationBearing := throughZero (mod_ bearing 360) heading in
  if Qltb (fabs (destinationBearing - heading)) (drivingBearing nav)
  then
    turningEffort <- bearingPid_update heading destinationBearing ;;
    let left_vel := std_min 1 (std_max 0 (1 + turningEffort)) in
    let right_vel := std_min 1 (std_max 0 (1 - turningEffort)) in
    publishAutonDriveCmd left_vel right_vel ;;
    ret OnCourse
  else
    print Cerr [Str "offcourse\n"] ;;
    ret OffCourse.

(** ** [Rover::turn] *)

(** [turn( bearing )], lines 227-257. *)
Definition turn (bearing : Q) : M bool :=
heading <- gets (fun s => Odometry.bearing_deg (mOdometry s)) ;;
let bearing := throughZero (mod_ bearing 360) heading in
currentState <- gets mCurrentState ;;
let turningBearingThreshold :=
  if isTurningAroundObstacle currentState then 0 else turningBearing nav in
if Qle_bool (fabs (bearing - heading)) turningBearingThreshold
then ret true
else
  turningEffort <- bearingPid_update heading bearing ;;
  print Cout [Str "cur bearing: "; Num heading; Str " target bearing: ";
              Num bearing; Str " effort: "; Num turningEffort; Endl] ;;
  let minTurningEffort :=
    minTurningEffort nav * (if Qltb turningEffort 0 then -1 else 1) in
  let turningEffort :=
    if isTurningAroundObstacle currentState &&
       Qltb (fabs turningEffort) minTurningEffort
    then minTurningEffort
    else turningEffort in
  let left_vel := std_max (std_min 1 turningEffort) (-1) in
  let right_vel := std_max (std_min 1 (- turningEffort)) (-1) in
  print Cout [Num left_vel; Str ", "; Num right_vel; Endl] ;;
  publishAutonDriveCmd left_vel right_vel ;;
  ret false.

(** ** [Rover::stop], lines 260-264 *)

Definition stop : M unit :=
print Cout [Str "stopping"; Endl] ;;
publishAutonDriveCmd 0 0.

(** ** [Rover::updateRover] *)

(** [mRoverStatus.path().front()]. *)
Definition path_front : M Waypoint.t :=
path <- gets mPath ;;
match path with
| [] => undefined FrontOfEmptyDeque
| wp :: _ => ret wp
end.

(** Lines 289-293: "If any data has changed, update all data". *)
Definition updateData (newRoverStatus : RoverStatus) : M unit :=
modify (set_obstacle (mObstacle newRoverStatus)) ;;
print Cout [Str "updating odom"; Endl] ;;
modify (set_odometry (mOdometry newRoverStatus)) ;;
modify (set_leftTarget (mTargetLeft newRoverStatus)) ;;
modify (set_rightTarget (mTargetRight newRoverStatus)).

(** Lines 295-334: "Cache Left Target if we had detected one", with
    "Associate with single post", "Update leftTarget if we have 3 or more
    consecutive hits" and "Cache Right Target if we had detected one"
    inside it, and the branch taken when no left target is detected. *)
Definition cacheTargets : M unit :=
leftTarget <- gets mTargetLeft ;;
if negb (Qeq_bool (Target.distance leftTarget) (noTargetDist nav))
then
  front <- path_front ;;
  (if (Target.id leftTarget =? Waypoint.id front)%Z
   then increment countLeftHits set_leftHits
   else modify (set_leftHits 0)) ;;
  leftHits <- gets countLeftHits ;;
  (if (3 <=? leftHits)%Z
   then
     modify (fun s => set_leftCacheTarget (mTargetLeft s) s) ;;
     modify (set_leftMisses 0)
   else ret tt) ;;
  rightTarget <- gets mTargetRight ;;
  if negb (Qeq_bool (Target.distance rightTarget) (noTargetDist nav))
  then
    modify (fun s => set_rightCacheTarget (mTargetRight s) s) ;;
    modify (set_rightMisses 0)
  else increment countRightMisses set_rightMisses
else
  increment countLeftMisses set_leftMisses ;;
  increment countRightMisses set_rightMisses ;;
  modify (set_leftHits 0) ;;
  modify (set_rightHits 0).

(** Lines 336-343: "Check if we need to reset left cache". *)
Definition resetLeftCache : M unit :=
leftMisses <- gets countLeftMisses ;;
if Qltb (cacheMissMax nav) (inject_Z leftMisses)
then
  modify (set_leftMisses 0) ;;
  modify (set_leftHits 0) ;;
  modify (set_leftCacheTarget emptyTarget)
else ret tt.

(** Lines 345-352: "Check if we need to reset right cache". *)
Definition resetRightCache : M unit :=
rightMisses <- gets countRightMisses ;;
if Qltb (cacheMissMax nav) (inject_Z rightMisses)
then
  modify (set_rightMisses 0) ;;
  modify (set_rightHits 0) ;;
  modify (set_rightCacheTarget emptyTarget)
else ret tt.

(** The condition of lines 284-287: an observable differs. *)
Definition dataChanged (old new : RoverStatus) : bool :=
negb (isEqual_Obstacle (mObstacle old) (mObstacle new)) ||
negb (isEqual_Odometry (mOdometry old) (mOdometry new)) ||
negb (isEqual_Target (mTargetLeft old) (mTargetLeft new)) ||
negb (isEqual_Target (mTargetRight old) (mTargetRight new)).

(** [updateRover( newRoverStatus )], lines 271-372. *)
Definition updateRover (newRoverStatus : RoverStatus) : M bool :=
autonState <- gets mAutonState ;;
if AutonState.is_auton autonState
then
  if negb (AutonState.is_auton (mAutonState newRoverStatus))
  then
    modify (set_autonState (mAutonState newRoverStatus)) ;;
    ret true
  else
    old <- gets (fun s => s) ;;
    if dataChanged old newRoverStatus
    then
      updateData newRoverStatus ;;
      cacheTargets ;;
      resetLeftCache ;;
      resetRightCache ;;
      ret true
    else ret true
else
  if AutonState.is_auton (mAutonState newRoverStatus)
  then
    RoverStatus_assign newRoverStatus ;;
    odometry <- gets mOdometry ;;
    modify_rover (set_longMeterInMinutes
      (60 / (EARTH_CIRCUM *
             cos_degreeToRadian (Odometry.latitude_deg odometry)
                                (Odometry.latitude_min odometry) / 360))) ;;
    ret true
  else ret false.

End Controller.

(** ** The other overloads of [drive] and [turn] *)

(** Taken as parameters, their code being in other files of the
    repository: the geodetic helpers [estimateNoneuclid] and [calcBearing]
    of [utilities.hpp]. *)
Class Geodetic := {
  estimateNoneuclid : Odometry.t -> Odometry.t -> Q;
  calcBearing : Odometry.t -> Odometry.t -> Q
}.

Section Overloads.

Context {ext : Externals} {geo : Geodetic}.

Variable mRoverConfig : RoverConfig.

(** [drive( destination )], lines 153-158. *)
Definition drive_destination (destination : Odometry.t) : M DriveStatus :=
odometry <- gets mOdometry ;;
let distance := estimateNoneuclid odometry destination in
let bearing := calcBearing odometry destination in
drive mRoverConfig distance bearing false.

(** [drive( direction, bearing )], lines 203-213. *)
Definition drive_direction (direction : Z) (bearing : Q) : M unit :=
heading <- gets (fun s => Odometry.bearing_deg (mOdometry s)) ;;
let destinationBearing := throughZero (mod_ bearing 360) heading in
turningEffort <- bearingPid_update heading destinationBearing ;;
let left_vel := std_min 1 (std_max 0 (1 + turningEffort)) in
let right_vel := std_min 1 (std_max 0 (1 - turningEffort)) in
print Cout [Str "publishing drive command: "; Num left_vel; Str " , ";
            Num right_vel; Endl] ;;
publishAutonDriveCmd mRoverConfig left_vel right_vel.

(** [turn( destination )], lines 218-222. *)
Definition turn_destination (destination : Odometry.t) : M bool :=
odometry <- gets mOdometry ;;
let bearing := calcBearing odometry destination in
turn mRoverConfig bearing.

End Overloads.

(** ** The externals, modelled for concrete runs *)

(** Modelled from the spec: [PidLoop], whose code is in another file of
    the repository, a proportional-integral-derivative controller over the bearing error with
    the accumulated integral and the previous error as its state, and no
    saturation of the effort. *)
Module Pid.
Record t := { kP : Q; kI : Q; kD : Q; integral : Q; previousError : Q }.

Definition update (pid : t) (current desired : Q) : Q * t :=
let error := desired - current in
let total := integral pid + error in
(Qred (kP pid * error + kI pid * total + kD pid * (error - previousError pid)),
 {| kP := kP pid; kI := kI pid; kD := kD pid;
    integral := Qred total; previousError := Qred error |}).
End Pid.

(** Modelled from the spec: [mod] of utilities.hpp, which normalizes a
    bearing into [0, modulus). *)
Definition mod_spec (degree : Q) (modulus : Z) : Q :=
Qred (degree - inject_Z (modulus * Qfloor (degree / inject_Z modulus))).

(** Modelled from the spec: [throughZero] of utilities.hpp.  When the two
    bearings are more than half a turn apart numerically, the destination
    bearing moves by 360 degrees towards the current one. *)
Definition throughZero_spec (destinationBearing currentBearing : Q) : Q :=
if Qltb 180 (fabs (currentBearing - destinationBearing))
then if Qltb currentBearing 180
     then destinationBearing - 360
     else destinationBearing + 360
else destinationBearing.

(** Modelled from the spec: the cosine of a latitude given in degrees and
    minutes, by the first terms of its series, with 355/113 for pi. *)
Definition cos_spec (deg : Z) (min : Q) : Q :=
let x := (inject_Z deg + min / 60) * (355 # 113) / 180 in
Qred (1 - x * x / 2 + x * x * x * x / 24).

#[local] Instance sampleExternals : Externals := {
  PidLoop := Pid.t;
  PidLoop_update := Pid.update;
  mod_ := mod_spec;
  throughZero := throughZero_spec;
  EARTH_CIRCUM := 40075000;
  cos_degreeToRadian := cos_spec
}.

(** A value between two bounds, as the specification words the velocity
    mapping: [clamp x lo hi] is [x] brought into [lo, hi]. *)
Definition clamp (x lo hi : Q) : Q := Qmin hi (Qmax lo x).

(** The effort that [drive] and [turn] get from the PID loop for a call
    with [bearing] in state [r]. *)
Definition pidEffort {ext : Externals} (r : Rover) (bearing : Q) : Q :=
let heading := Odometry.bearing_deg (mOdometry (mRoverStatus r)) in
fst (PidLoop_update (mBearingPid r) heading (throughZero (mod_ bearing 360) heading)).

(** The waypoints that count as path targets: those flagged [search] or
    [gate]. *)
Definition isPathTarget (wp : Waypoint.t) : bool :=
Waypoint.search wp || Waypoint.gate wp.

Definition countPathTargets (waypoints : list Waypoint.t) : Z :=
Z.of_nat (length (filter isPathTarget waypoints)).

(** A [Course] as LCM decodes it: [num_waypoints] is an [int32_t] and is
    the length of [waypoints]. *)
Definition Course_wf (course : Course.t) : Prop :=
Course.num_waypoints course = Z.of_nat (length (Course.waypoints course)) /\
(Course.num_waypoints course <= INT_MAX)%Z.

(** The status that [operator=] leaves when [new] is assigned over [old]
    and the course of [new] is well formed: the navigation state and the
    two hit counters are not among the members that the operator copies. *)
Definition assigned (old new : RoverStatus) : RoverStatus :=
{| mCurrentState := mCurrentState old;
   mAutonState := mAutonState new;
   mCourse := mCourse new;
   mPath := Course.waypoints (mCourse new);
   mObstacle := mObstacle new;
   mOdometry := mOdometry new;
   mTargetLeft := mTargetLeft new;
   mTargetRight := mTargetRight new;
   mCTargetLeft := mCTargetLeft new;
   mCTargetRight := mCTargetRight new;
   mPathTargets := countPathTargets (Course.waypoints (mCourse new));
   countLeftMisses := countLeftMisses new;
   countRightMisses := countRightMisses new;
   countLeftHits := countLeftHits old;
   countRightHits := countRightHits old |}.

(** The counters that the cache-stabilization pass increments are below
    [INT_MAX], so that [++] is defined. *)
Definition countersBelowMax (s : RoverStatus) : Prop :=
(countLeftHits s < INT_MAX)%Z /\
(countLeftMisses s < INT_MAX)%Z /\
(countRightMisses s < INT_MAX)%Z.

(** ** Concrete runs *)

(** The loop of the owning process: one call of [updateRover] for each
    snapshot that arrives. *)
Fixpoint updateRoverAll {ext : Externals} (cfg : RoverConfig)
  (snapshots : list RoverStatus) : M unit :=
match snapshots with
| [] => ret tt
| newRoverStatus :: later =>
    updateRover cfg newRoverStatus ;; updateRoverAll cfg later
end.

(** The state that a computation leaves. *)
Definition stateAfter {ext : Externals} {A} (m : M A) (r : Rover) : Rover :=
match m r with
| Ok (_, r') => r'
| UB _ => r
end.

(** ** The streak of left hits over a sequence of calls *)

(** What a call of [updateRover] means for the left hit count: a sighting
    that matches the front of the path, a pass that clears the count (a
    mismatch, or no left target), or a call that runs no pass. *)
Inductive LeftEvent := LeftHit | LeftClear | LeftIdle.

Definition leftEvent {ext : Externals} (cfg : RoverConfig) (r : Rover)
  (new : RoverStatus) : LeftEvent :=
let s := mRoverStatus r in
if AutonState.is_auton (mAutonState s) &&
   AutonState.is_auton (mAutonState new) && dataChanged s new
then
  if Qeq_bool (Target.distance (mTargetLeft new)) (noTargetDist (nav cfg))
  then LeftClear
  else
    match mPath s with
    | front :: _ =>
        if (Target.id (mTargetLeft new) =? Waypoint.id front)%Z
        then LeftHit else LeftClear
    | [] => LeftIdle
    end
else LeftIdle.

(** The number of matching sightings in a row after an event, given the
    number before it. *)
Definition streakAfter (streak : Z) (event : LeftEvent) : Z :=
match event with
| LeftHit => (streak + 1)%Z
| LeftClear => 0%Z
| LeftIdle => streak
end.

(** The streak at the end of a sequence of snapshots, each given to
    [updateRover] in the state that the calls before it left. *)
Fixpoint leftStreak {ext : Externals} (cfg : RoverConfig)
  (snapshots : list RoverStatus) (r : Rover) (streak : Z) : Z :=
match snapshots with
| [] => streak
| new :: later =>
    leftStreak cfg later (stateAfter (updateRover cfg new) r)
      (streakAfter streak (leftEvent cfg r new))
end.

Definition sampleConfig : RoverConfig :=
{| navThresholds :=
     {| waypointDistance := 1; targetDistance := 1 # 2; drivingBearing := 10;
        turningBearing := 3; minTurningEffort := 1 # 2; noTargetDist := -1;
        cacheMissMax := 5 |};
   autonDriveControlChannel := "/autonomous/auton_drive_control" |}.

Definition samplePid : Pid.t :=
{| Pid.kP := 1 # 100; Pid.kI := 0; Pid.kD := 0;
   Pid.integral := 0; Pid.previousError := 0 |}.

Definition odometryAt (heading : Q) : Odometry.t :=
{| Odometry.latitude_deg := 42; Odometry.latitude_min := 17;
   Odometry.longitude_deg := -83; Odometry.longitude_min := 42;
   Odometry.bearing_deg := heading |}.

Definition noObstacle : Obstacle.t :=
{| Obstacle.id := 0; Obstacle.bearing := 0; Obstacle.distance := -1 |}.

Definition waypoint (id : Z) (search : bool) : Waypoint.t :=
{| Waypoint.search := search; Waypoint.gate := false; Waypoint.id := id;
   Waypoint.odom := odometryAt 0 |}.

(** Five waypoints, two of them flagged [search]. *)
Definition sampleCourse : Course.t :=
{| Course.num_waypoints := 5;
   Course.waypoints :=
     [waypoint 7 true; waypoint 8 false; waypoint 9 false; waypoint 10 true;
      waypoint 11 false] |}.

Definition emptyCourse : Course.t :=
{| Course.num_waypoints := 0; Course.waypoints := [] |}.

(** [Rover::RoverStatus::RoverStatus()], lines 10-21.  The members that
    the constructor does not mention (course, path, odometry, the target
    count and the four counters) are empty and zero. *)
Definition RoverStatus_new : RoverStatus :=
{| mCurrentState := Off;
   mAutonState := {| AutonState.is_auton := false |};
   mCourse := emptyCourse;
   mPath := [];
   mObstacle := noObstacle;
   mOdometry :=
     {| Odometry.latitude_deg := 0; Odometry.latitude_min := 0;
        Odometry.longitude_deg := 0; Odometry.longitude_min := 0;
        Odometry.bearing_deg := 0 |};
   mTargetLeft := emptyTarget;
   mTargetRight := emptyTarget;
   mCTargetLeft := emptyTarget;
   mCTargetRight := emptyTarget;
   mPathTargets := 0;
   countLeftMisses := 0;
   countRightMisses := 0;
   countLeftHits := 0;
   countRightHits := 0 |}.

(** A snapshot as the caller builds it: a new status with the received
    data filled in. *)
Definition snapshot (auton : bool) (course : Course.t) (heading : Q)
  (left right : Target.t) : RoverStatus :=
set_rightTarget right
  (set_leftTarget left
     (set_odometry (odometryAt heading)
        (set_course course
           (set_autonState {| AutonState.is_auton := auton |} RoverStatus_new)))).

(** The post with id 7, seen at the given distance. *)
Definition post7 (distance : Q) : Target.t :=
{| Target.distance := distance; Target.bearing := 0; Target.id := 7 |}.

(** A rover as constructed: off, nothing seen, nothing sent. *)
Definition initialRover : Rover :=
{| mRoverStatus := RoverStatus_new;
   mBearingPid := samplePid;
   mLongMeterInMinutes := -1;
   lcm_published := [];
   console := [] |}.

(** Switched on with the sample course, heading 20 degrees. *)
Definition roverOn : Rover :=
Eval vm_compute in
  stateAfter
    (updateRover sampleConfig (snapshot true sampleCourse 20 emptyTarget emptyTarget))
    initialRover.

(** Then post 7 seen twice on the left. *)
Definition roverTwoHits : Rover :=
Eval vm_compute in
  stateAfter
    (updateRoverAll sampleConfig
       [snapshot true sampleCourse 20 (post7 9) emptyTarget;
        snapshot true sampleCourse 20 (post7 8) emptyTarget])
    roverOn.

(** Then seen a third time. *)
Definition roverPromoted : Rover :=
Eval vm_compute in
  stateAfter
    (updateRover sampleConfig (snapshot true sampleCourse 20 (post7 7) emptyTarget))
    roverTwoHits.

(** Then five snapshots without a left target, the heading changing. *)
Definition roverFiveMisses : Rover :=
Eval vm_compute in
  stateAfter
    (updateRoverAll sampleConfig
       [snapshot true sampleCourse 21 emptyTarget emptyTarget;
        snapshot true sampleCourse 22 emptyTarget emptyTarget;
        snapshot true sampleCourse 23 emptyTarget emptyTarget;
        snapshot true sampleCourse 24 emptyTarget emptyTarget;
        snapshot true sampleCourse 25 emptyTarget emptyTarget])
    roverPromoted.

(** Two hits, then switched off. *)
Definition roverStopped : Rover :=
Eval vm_compute in
  stateAfter
    (updateRover sampleConfig (snapshot false sampleCourse 20 (post7 8) emptyTarget))
    roverTwoHits.

(** Switched on with a course that has no waypoint. *)
Definition roverOnEmptyCourse : Rover :=
Eval vm_compute in
  stateAfter
    (updateRover sampleConfig (snapshot true emptyCourse 20 emptyTarget emptyTarget))
    initialRover.

(** Rounding an obstacle, heading 20 degrees. *)
Definition roverTurning : Rover :=
{| mRoverStatus :=
     {| mCurrentState := TurnAroundObs;
        mAutonState := {| AutonState.is_auton := true |};
        mCourse := sampleCourse;
        mPath := Course.waypoints sampleCourse;
        mObstacle := noObstacle;
        mOdometry := odometryAt 20;
        mTargetLeft := emptyTarget;
        mTargetRight := emptyTarget;
        mCTargetLeft := emptyTarget;
        mCTargetRight := emptyTarget;
        mPathTargets := 2;
        countLeftMisses := 0;
        countRightMisses := 0;
        countLeftHits := 0;
        countRightHits := 0 |};
   mBearingPid := samplePid;
   mLongMeterInMinutes := -1;
   lcm_published := [];
   console := [] |}.

(** Three waypoints announced as two: the count is short of the vector. *)
Definition courseCountShort : Course.t :=
{| Course.num_waypoints := 2;
   Course.waypoints := [waypoint 7 true; waypoint 8 false; waypoint 9 true] |}.

(** Three waypoints announced as four: the count is past the vector. *)
Definition courseCountLong : Course.t :=
{| Course.num_waypoints := 4;
   Course.waypoints := [waypoint 7 true; waypoint 8 false; waypoint 9 true] |}.

(** A post with another id, seen on the right. *)
Definition post8 (distance : Q) : Target.t :=
{| Target.distance := distance; Target.bearing := 5; Target.id := 8 |}.

(** The rover with two hits, its left hit count put at [INT_MAX]. *)
Definition roverHitsAtMax : Rover :=
set_roverStatus (set_leftHits INT_MAX (mRoverStatus roverTwoHits)) roverTwoHits.

(** ** Notions for the invariants of the controller *)

(** A command whose two velocities lie in [-1, 1], the range of the
    outbound message. *)
Definition inRange (cmd : string * AutonDriveControl.t) : Prop :=
-1 <= AutonDriveControl.left_percent_velocity (snd cmd) <= 1 /\
-1 <= AutonDriveControl.right_percent_velocity (snd cmd) <= 1.

(** Two statuses that agree on every member but the two cache slots and
    the four counters. *)
Definition sameButCaches (s s' : RoverStatus) : Prop :=
mCurrentState s' = mCurrentState s /\
mAutonState s' = mAutonState s /\
mCourse s' = mCourse s /\
mPath s' = mPath s /\
mObstacle s' = mObstacle s /\
mOdometry s' = mOdometry s /\
mTargetLeft s' = mTargetLeft s /\
mTargetRight s' = mTargetRight s /\
mPathTargets s' = mPathTargets s.

(** Two rovers with the same PID loop, conversion factor, published
    commands and console. *)
Definition sameOutsideStatus {ext : Externals} (r r' : Rover) : Prop :=
mBearingPid r' = mBearingPid r /\
mLongMeterInMinutes r' = mLongMeterInMinutes r /\
lcm_published r' = lcm_published r /\
console r' = console r.

(** The target count agrees with the path. *)
Definition pathTargetsCounted (s : RoverStatus) : Prop :=
mPathTargets s = countPathTargets (mPath s).

(** A control operation run from [r]: it returns, leaves the rover status
    and the conversion factor as they are, and publishes at most one
    command, with both velocities in [-1, 1]. *)
Definition controlStep {ext : Externals} {A} (m : M A) (r : Rover) : Prop :=
exists a r' added,
  m r = Ok (a, r') /\
  mRoverStatus r' = mRoverStatus r /\
  mLongMeterInMinutes r' = mLongMeterInMinutes r /\
  lcm_published r' = lcm_published r ++ added /\
  (length added <= 1)%nat /\
  Forall inRange added.

(** The heading of the rover and the bearing that [drive] and [turn] steer
    to: the argument normalized by [mod] and adjusted by [throughZero]. *)
Definition headingOf {ext : Externals} (r : Rover) : Q :=
Odometry.bearing_deg (mOdometry (mRoverStatus r)).

Definition destinationOf {ext : Externals} (r : Rover) (bearing : Q) : Q :=
throughZero (mod_ bearing 360) (headingOf r).

(** The distance below which [drive] has arrived. *)
Definition arrivalDistance (cfg : RoverConfig) (target : bool) : Q :=
if target then targetDistance (nav cfg) else waypointDistance (nav cfg).



(** * Properties *)

(** ** Comparisons on doubles *)

Lemma Qltb_true (x y : Q) : Qltb x y = true <-> x < y.
Proof.
  unfold Qltb. rewrite Qlt_alt.
  destruct (x ?= y); split; intro H; congruence.
Qed.

Lemma Qltb_false (x y : Q) : Qltb x y = false <-> y <= x.
Proof.
  pose proof (Qltb_true x y) as Ht.
  destruct (Qltb x y); split; intro H.
  - discriminate.
  - exfalso. apply (Qle_not_lt _ _ H). apply Ht. reflexivity.
  - apply Qnot_lt_le. intro Hlt. apply Ht in Hlt. discriminate.
  - reflexivity.
Qed.

(** Case analysis on every comparison of the goal. *)
Ltac qcases :=
  repeat match goal with
  | |- context [Qltb ?a ?b] =>
      let E := fresh "E" in
      destruct (Qltb a b) eqn:E;
      [apply Qltb_true in E | apply Qltb_false in E]
  | _ : context [Qltb ?a ?b] |- _ =>
      let E := fresh "E" in
      destruct (Qltb a b) eqn:E;
      [apply Qltb_true in E | apply Qltb_false in E]
  end.

Lemma std_min_spec (a b : Q) : std_min a b == Qmin a b.
Proof.
  unfold std_min. qcases.
  - symmetry. apply Q.min_r. lra.
  - symmetry. apply Q.min_l. lra.
Qed.

Lemma std_max_spec (a b : Q) : std_max a b == Qmax a b.
Proof.
  unfold std_max. qcases.
  - symmetry. apply Q.max_r. lra.
  - symmetry. apply Q.max_l. lra.
Qed.

(** The nested [min]/[max] of the velocity mappings is the clamp. *)
Lemma std_min_max_clamp (x lo hi : Q) :
  std_min hi (std_max lo x) == clamp x lo hi.
Proof.
  unfold clamp. rewrite std_min_spec.
  apply Q.min_compat; [reflexivity | apply std_max_spec].
Qed.

(** The velocity mapping of [drive]: for an effort [e], the two clamped
    velocities lie in [0, 1], the larger one is 1, the wheel that the sign
    of [e] selects is at 1 and, for [|e| <= 1], the other is at [1 - |e|]. *)
Lemma drive_velocity_mapping (e : Q) :
  let left_vel := std_min 1 (std_max 0 (1 + e)) in
  let right_vel := std_min 1 (std_max 0 (1 - e)) in
  (0 <= left_vel <= 1) /\ (0 <= right_vel <= 1) /\
  Qmax left_vel right_vel == 1 /\
  (0 <= e -> left_vel == 1) /\
  (e <= 0 -> right_vel == 1) /\
  (Qabs e <= 1 ->
   (0 <= e -> right_vel == 1 - Qabs e) /\ (e <= 0 -> left_vel == 1 - Qabs e)).
Proof.
  intros left_vel right_vel.
  assert (Hl : 0 <= left_vel <= 1)
    by (subst left_vel; unfold std_min, std_max; qcases; lra).
  assert (Hr : 0 <= right_vel <= 1)
    by (subst right_vel; unfold std_min, std_max; qcases; lra).
  assert (Hpos : 0 <= e -> left_vel == 1)
    by (subst left_vel; unfold std_min, std_max; qcases; lra).
  assert (Hneg : e <= 0 -> right_vel == 1)
    by (subst right_vel; unfold std_min, std_max; qcases; lra).
  repeat split; try tauto.
  - destruct (Qlt_le_dec e 0) as [He | He].
    + rewrite Q.max_r; [apply Hneg | rewrite Hneg]; lra.
    + rewrite Q.max_l; [apply Hpos | rewrite Hpos]; lra.
  - intro He. rewrite (Qabs_pos e He) in *.
    subst right_vel; unfold std_min, std_max; qcases; lra.
  - intro He. rewrite (Qabs_neg e He) in *.
    subst left_vel; unfold std_min, std_max; qcases; lra.
Qed.

(** A computation chosen by a condition, run from a state. *)
Lemma if_app {A B} (c : bool) (f g : A -> B) (x : A) :
  (if c then f else g) x = if c then f x else g x.
Proof. destruct c; reflexivity. Qed.

(** Reduces the accesses to the members of the state. *)
Ltac members :=
  cbv beta iota zeta;
  cbn
    [mRoverStatus mBearingPid mLongMeterInMinutes lcm_published console
     set_roverStatus set_bearingPid set_longMeterInMinutes add_published
     add_console
     mCurrentState mAutonState mCourse mPath mObstacle mOdometry mTargetLeft
     mTargetRight mCTargetLeft mCTargetRight mPathTargets countLeftMisses
     countRightMisses countLeftHits countRightHits
     set_autonState set_course set_path set_obstacle set_odometry
     set_leftTarget set_rightTarget set_leftCacheTarget set_rightCacheTarget
     set_pathTargets set_leftMisses set_rightMisses set_leftHits set_rightHits
     fst snd negb andb orb].

Ltac members_in H :=
  cbv beta iota zeta in H;
  cbn
    [mRoverStatus mBearingPid mLongMeterInMinutes lcm_published console
     set_roverStatus set_bearingPid set_longMeterInMinutes add_published
     add_console
     mCurrentState mAutonState mCourse mPath mObstacle mOdometry mTargetLeft
     mTargetRight mCTargetLeft mCTargetRight mPathTargets countLeftMisses
     countRightMisses countLeftHits countRightHits
     set_autonState set_course set_path set_obstacle set_odometry
     set_leftTarget set_rightTarget set_leftCacheTarget set_rightCacheTarget
     set_pathTargets set_leftMisses set_rightMisses set_leftHits set_rightHits
     fst snd negb andb orb] in H.

(** Unfolds the computations of the controller and runs them as far as
    the conditions allow. *)
Ltac run :=
  unfold drive, turn, stop, updateRover, updateData, cacheTargets,
    resetLeftCache, resetRightCache, RoverStatus_assign, path_front,
    publishAutonDriveCmd, bearingPid_update, increment, print, modify, gets,
    modify_rover, undefined, bind, ret;
  members;
  repeat (rewrite if_app; members).

(** Runs a computation, deciding each condition that a hypothesis decides. *)
Ltac run_hyps :=
  repeat (run;
    match goal with
    | H : ?c = true |- context [?c] => rewrite H
    | H : ?c = false |- context [?c] => rewrite H
    | H : ?l = [] |- context [?l] => rewrite H
    | H : ?l = _ :: _ |- context [?l] => rewrite H
    | |- context [(3 <=? 0)%Z] => change (3 <=? 0)%Z with false
    end);
  run.

(** The nested [max]/[min] of [turn] is the clamp as well. *)
Lemma std_min_max_clamp_sym (x : Q) :
  std_max (std_min 1 x) (-1) == clamp x (-1) 1.
Proof.
  unfold clamp, std_min, std_max.
  apply Q.min_case_strong; try (intros ? ? ->; tauto);
    apply Q.max_case_strong; try (intros ? ? ->; tauto); intros;
    qcases; lra.
Qed.

Section Properties.

Context {ext : Externals}.
Variable cfg : RoverConfig.

(** ** [drive] *)

(** C1.  [drive] returns [Arrived] exactly when the distance is strictly
    below the threshold of the driving mode ([targetDistance] for a target,
    [waypointDistance] for a waypoint), whatever the bearing; and a call
    that returns [Arrived] publishes nothing. *)
Theorem drive_Arrived_iff (r : Rover) (distance bearing : Q) (target : bool) :
  exists status r',
    drive cfg distance bearing target r = Ok (status, r') /\
    (status = Arrived <->
     distance < (if target then targetDistance (nav cfg)
                 else waypointDistance (nav cfg))) /\
    (status = Arrived -> lcm_published r' = lcm_published r).
Proof.
  destruct r as [s pid long out con].
  destruct target; run.
  all: destruct (Qltb distance _) eqn:Hd;
    [ apply Qltb_true in Hd | apply Qltb_false in Hd ]; cbn [orb andb].
  all: try (eexists _, _; split; [reflexivity | split; [tauto | reflexivity]]).
  all: destruct (Qltb (fabs _) _);
    [ destruct (PidLoop_update _ _ _) as [effort pid'] | ].
  all: eexists _, _; split; [reflexivity | ].
  all: split; [ split; [discriminate | intro; exfalso; lra] | discriminate ].
Qed.

(** C5.  A call of [drive] that corrects the course publishes, for the
    effort [e] of the PID loop, the velocities [left = clamp(1 + e, 0, 1)]
    and [right = clamp(1 - e, 0, 1)]: both lie in [0, 1], the larger of the
    two is 1, the wheel on the side of the turn (left for [e >= 0], right
    for [e <= 0]) is at 1, and the other one is at [1 - |e|] when
    [|e| <= 1]. *)
Theorem drive_OnCourse_velocities (r r' : Rover) (distance bearing : Q)
    (target : bool) :
  drive cfg distance bearing target r = Ok (OnCourse, r') ->
  let e := pidEffort r bearing in
  exists left_vel right_vel,
    lcm_published r' =
      lcm_published r ++
      [(autonDriveControlChannel cfg,
        {| AutonDriveControl.left_percent_velocity := left_vel;
           AutonDriveControl.right_percent_velocity := right_vel |})] /\
    left_vel == clamp (1 + e) 0 1 /\
    right_vel == clamp (1 - e) 0 1 /\
    (0 <= left_vel <= 1) /\ (0 <= right_vel <= 1) /\
    Qmax left_vel right_vel == 1 /\
    (0 <= e -> left_vel == 1) /\
    (e <= 0 -> right_vel == 1) /\
    (Qabs e <= 1 ->
     (0 <= e -> right_vel == 1 - Qabs e) /\ (e <= 0 -> left_vel == 1 - Qabs e)).
Proof.
  unfold pidEffort. destruct r as [s pid long out con].
  run.
  destruct (_ || _); [discriminate | ].
  destruct (Qltb (fabs _) _); [ | discriminate ].
  destruct (PidLoop_update _ _ _) as [effort pid']. run.
  intros H. injection H as <-.
  exists (std_min 1 (std_max 0 (1 + effort))), (std_min 1 (std_max 0 (1 - effort))).
  split; [reflexivity | ].
  split; [apply std_min_max_clamp | ].
  split; [apply std_min_max_clamp | ].
  apply drive_velocity_mapping.
Qed.

(** C6.  [drive] publishes exactly one wheel command when it returns
    [OnCourse] and none when it returns [Arrived] or [OffCourse]; the
    [OffCourse] outcome changes nothing of the rover but the console, where
    it leaves its diagnostic line. *)
Theorem drive_publishes_only_OnCourse (r : Rover) (distance bearing : Q)
    (target : bool) :
  exists status r',
    drive cfg distance bearing target r = Ok (status, r') /\
    match status with
    | OnCourse =>
        exists cmd,
          lcm_published r' = lcm_published r ++ [(autonDriveControlChannel cfg, cmd)]
    | Arrived => r' = r
    | OffCourse =>
        lcm_published r' = lcm_published r /\
        mRoverStatus r' = mRoverStatus r /\
        mBearingPid r' = mBearingPid r /\
        mLongMeterInMinutes r' = mLongMeterInMinutes r /\
        console r' = console r ++ [(Cerr, [Str "offcourse\n"])]
    end.
Proof.
  destruct r as [s pid long out con].
  run.
  destruct (_ || _).
  - eexists _, _. split; reflexivity.
  - destruct (Qltb (fabs _) _).
    + destruct (PidLoop_update _ _ _) as [effort pid'].
      eexists _, _. split; [reflexivity | ].
      eexists. reflexivity.
    + eexists _, _. split; [reflexivity | ].
      repeat split.
Qed.

(** ** [turn] *)

(** The symmetric velocity mapping of [turn]: the right velocity is the
    opposite of the left one, and both lie in [-1, 1]. *)
Lemma turn_velocity_mapping (e : Q) :
  let left_vel := std_max (std_min 1 e) (-1) in
  let right_vel := std_max (std_min 1 (- e)) (-1) in
  right_vel == - left_vel /\ (-1 <= left_vel <= 1) /\ (-1 <= right_vel <= 1).
Proof.
  intros left_vel right_vel.
  assert (Hl : -1 <= left_vel <= 1)
    by (subst left_vel; unfold std_min, std_max; qcases; lra).
  assert (Hr : right_vel == - left_vel)
    by (subst left_vel right_vel; unfold std_min, std_max; qcases; lra).
  split; [exact Hr | split; [exact Hl | rewrite Hr; lra]].
Qed.

(** The effort that [turn] uses while the rover rounds an obstacle and is
    not yet aligned: for a PID effort [e >= 0] it is the larger of [e] and
    [minTurningEffort]; for [e < 0] it is [e] itself, whatever the (not
    negative) minimum is.  One command is published, built from the effort
    used: the left velocity is that effort brought into [-1, 1] and the
    right velocity is its opposite. *)
Theorem turn_around_obstacle_effort (r : Rover) (bearing : Q) :
  let heading := Odometry.bearing_deg (mOdometry (mRoverStatus r)) in
  let destination := throughZero (mod_ bearing 360) heading in
  let e := pidEffort r bearing in
  let least := minTurningEffort (nav cfg) in
  isTurningAroundObstacle (mCurrentState (mRoverStatus r)) = true ->
  Qle_bool (fabs (destination - heading)) 0 = false ->
  exists used left_vel right_vel r',
    turn cfg bearing r = Ok (false, r') /\
    lcm_published r' =
      lcm_published r ++
      [(autonDriveControlChannel cfg,
        {| AutonDriveControl.left_percent_velocity := left_vel;
           AutonDriveControl.right_percent_velocity := right_vel |})] /\
    left_vel == clamp used (-1) 1 /\
    right_vel == - left_vel /\
    (0 <= e -> used == Qmax e least) /\
    (e < 0 -> 0 <= least -> used = e).
Proof.
  unfold pidEffort. destruct r as [s pid long out con]. members.
  intros Hobs Hfar.
  destruct (PidLoop_update pid (Odometry.bearing_deg (mOdometry s))
              (throughZero (mod_ bearing 360) (Odometry.bearing_deg (mOdometry s))))
    as [e pid'] eqn:Hpid.
  members.
  set (signed := minTurningEffort (nav cfg) * (if Qltb e 0 then -1 else 1)).
  set (used := if Qltb (fabs e) signed then signed else e).
  exists used, (std_max (std_min 1 used) (-1)),
    (std_max (std_min 1 (- used)) (-1)).
  eexists. split.
  { run_hyps. rewrite Hpid. run. fold signed. fold used. reflexivity. }
  split; [reflexivity | ].
  split; [apply (std_min_max_clamp_sym used) | ].
  split; [apply turn_velocity_mapping | ].
  subst used signed. unfold fabs. split.
  - intro He. pose proof (Qabs_pos e He) as Habs.
    apply Q.max_case_strong; try (intros ? ? ->; tauto); intro Hmax;
      qcases; lra.
  - intros He Hleast. pose proof (Qabs_nonneg e).
    qcases; try reflexivity; exfalso; lra.
Qed.

(** ** [operator=] and the transition from off to on *)

Lemma pop_all_nil (path : list Waypoint.t) : pop_all path = [].
Proof. induction path as [ | wp rest IH]; [reflexivity | exact IH]. Qed.

Lemma skipn_nth_error {A} (l : list A) (i : nat) (x : A) :
  nth_error l i = Some x -> skipn i l = x :: skipn (S i) l.
Proof.
  revert i. induction l as [ | y l IH]; intros [ | i] H; try discriminate.
  - injection H as ->. reflexivity.
  - cbn in H. apply IH in H. exact H.
Qed.

Lemma countPathTargets_bounds (ws : list Waypoint.t) :
  (0 <= countPathTargets ws <= Z.of_nat (length ws))%Z.
Proof.
  unfold countPathTargets. pose proof (filter_length_le isPathTarget ws). lia.
Qed.

Lemma countPathTargets_cons (wp : Waypoint.t) (ws : list Waypoint.t) :
  countPathTargets (wp :: ws) =
  ((if isPathTarget wp then 1 else 0) + countPathTargets ws)%Z.
Proof.
  unfold countPathTargets. cbn [filter].
  destruct (isPathTarget wp); cbn [length]; lia.
Qed.

(** The loop of [operator=] appends the waypoints from [courseIndex] on to
    the path and adds their targets to the count. *)
Lemma push_waypoints_run (remaining courseIndex : nat) (r : Rover) :
  let s := mRoverStatus r in
  let ws := Course.waypoints (mCourse s) in
  (remaining + courseIndex = length ws)%nat ->
  (0 <= mPathTargets s < UINT_MODULUS)%Z ->
  push_waypoints remaining courseIndex r =
  Ok (tt,
      set_roverStatus
        (set_pathTargets
           ((mPathTargets s + countPathTargets (skipn courseIndex ws))
              mod UINT_MODULUS)%Z
           (set_path (mPath s ++ skipn courseIndex ws) s)) r).
Proof.
  revert courseIndex r.
  induction remaining as [ | k IH]; intros i r s ws Hlen Hrange.
  - cbn [push_waypoints]. cbn in Hlen. subst i.
    rewrite skipn_all.
    change (countPathTargets []) with 0%Z.
    rewrite Z.add_0_r, Z.mod_small, app_nil_r by exact Hrange.
    subst s. destruct r as [[] pid long out con]. reflexivity.
  - cbn [push_waypoints].
    destruct (nth_error ws i) as [wp | ] eqn:Hnth.
    2: { apply nth_error_None in Hnth. lia. }
    pose proof (skipn_nth_error _ _ Hnth) as Hskip.
    subst ws s. run. rewrite Hnth. run.
    fold (isPathTarget wp).
    rewrite Hskip, countPathTargets_cons.
    assert (Hm : (0 < UINT_MODULUS)%Z) by reflexivity.
    destruct (isPathTarget wp); run; rewrite IH; run;
      try (cbn in Hlen |- *; lia);
      try (apply Z.mod_pos_bound; exact Hm);
      try exact Hrange.
    + rewrite Zplus_mod_idemp_l, <- app_assoc, Z.add_assoc. reflexivity.
    + rewrite <- app_assoc. reflexivity.
Qed.

(** A rover that is off and receives a snapshot that is on adopts the
    snapshot through [operator=]. *)
Lemma updateRover_off_on (r : Rover) (new : RoverStatus) :
  AutonState.is_auton (mAutonState (mRoverStatus r)) = false ->
  AutonState.is_auton (mAutonState new) = true ->
  Course_wf (mCourse new) ->
  updateRover cfg new r =
  Ok (true,
      set_longMeterInMinutes
        (60 / (EARTH_CIRCUM *
               cos_degreeToRadian (Odometry.latitude_deg (mOdometry new))
                                  (Odometry.latitude_min (mOdometry new)) / 360))
        (set_roverStatus (assigned (mRoverStatus r) new) r)).
Proof.
  intros Hoff Hon [Hnum Hmax].
  destruct r as [s pid long out con]. cbn in Hoff.
  run. rewrite Hoff, Hon.
  run. rewrite push_waypoints_run; run.
  - rewrite pop_all_nil. cbn [app skipn].
    pose proof (countPathTargets_bounds (Course.waypoints (mCourse new))) as Hc.
    rewrite Z.add_0_l, Z.mod_small.
    + reflexivity.
    + unfold INT_MAX, UINT_MODULUS in *. lia.
  - rewrite Hnum, Nat2Z.id. lia.
  - unfold UINT_MODULUS. lia.
Qed.

(** ** The blocks of the cache-stabilization pass *)

Lemma updateData_run (r : Rover) (new : RoverStatus) :
  updateData new r =
  Ok (tt,
      set_roverStatus
        (set_rightTarget (mTargetRight new)
           (set_leftTarget (mTargetLeft new)
              (set_odometry (mOdometry new)
                 (set_obstacle (mObstacle new) (mRoverStatus r)))))
        (add_console (Cout, [Str "updating odom"; Endl]) r)).
Proof. destruct r as [s pid long out con]. reflexivity. Qed.

Lemma ltb_INT_MAX (n : Z) : (n < INT_MAX)%Z -> (n <? INT_MAX)%Z = true.
Proof. apply Z.ltb_lt. Qed.

(** With a left target in sight and a waypoint at the front of the path,
    the pass counts the hit or clears the count, promotes the left target
    from three hits on, and caches or misses the right target. *)
Lemma cacheTargets_detected (r : Rover) (front : Waypoint.t)
    (rest : list Waypoint.t) :
  let s := mRoverStatus r in
  Qeq_bool (Target.distance (mTargetLeft s)) (noTargetDist (nav cfg)) = false ->
  mPath s = front :: rest ->
  (countLeftHits s < INT_MAX)%Z ->
  (countRightMisses s < INT_MAX)%Z ->
  exists r1,
    cacheTargets cfg r = Ok (tt, r1) /\
    let s1 := mRoverStatus r1 in
    countLeftHits s1 =
      (if (Target.id (mTargetLeft s) =? Waypoint.id front)%Z
       then countLeftHits s + 1 else 0)%Z /\
    ((3 <= countLeftHits s1)%Z ->
     mCTargetLeft s1 = mTargetLeft s /\ countLeftMisses s1 = 0%Z) /\
    ((countLeftHits s1 < 3)%Z ->
     mCTargetLeft s1 = mCTargetLeft s /\
     countLeftMisses s1 = countLeftMisses s).
Proof.
  destruct r as [s pid long out con]. cbn [mRoverStatus].
  intros Hleft Hpath Hhits Hmisses.
  apply ltb_INT_MAX in Hhits, Hmisses.
  destruct (Target.id (mTargetLeft s) =? Waypoint.id front)%Z eqn:Hid.
  - destruct (3 <=? countLeftHits s + 1)%Z eqn:H3;
      destruct (Qeq_bool (Target.distance (mTargetRight s))
                  (noTargetDist (nav cfg))) eqn:Hright;
      (eexists; split; [run_hyps; reflexivity | ]); members;
      (split; [reflexivity | ]); split; intro; try lia; split; reflexivity.
  - destruct (Qeq_bool (Target.distance (mTargetRight s))
                (noTargetDist (nav cfg))) eqn:Hright;
      (eexists; split; [run_hyps; reflexivity | ]); members;
      (split; [reflexivity | ]); split; intro; try lia; split; reflexivity.
Qed.

(** With a left target in sight and an empty path, the pass reads the
    front of an empty deque. *)
Lemma cacheTargets_empty_path (r : Rover) :
  let s := mRoverStatus r in
  Qeq_bool (Target.distance (mTargetLeft s)) (noTargetDist (nav cfg)) = false ->
  mPath s = [] ->
  cacheTargets cfg r = UB FrontOfEmptyDeque.
Proof.
  destruct r as [s pid long out con]. cbn [mRoverStatus].
  intros Hleft Hpath. run_hyps. reflexivity.
Qed.

(** Without a left target the pass counts a miss on both sides and clears
    both hit counts. *)
Lemma cacheTargets_undetected (r : Rover) :
  let s := mRoverStatus r in
  Qeq_bool (Target.distance (mTargetLeft s)) (noTargetDist (nav cfg)) = true ->
  (countLeftMisses s < INT_MAX)%Z ->
  (countRightMisses s < INT_MAX)%Z ->
  cacheTargets cfg r =
  Ok (tt,
      set_roverStatus
        (set_rightHits 0
           (set_leftHits 0
              (set_rightMisses (countRightMisses s + 1)
                 (set_leftMisses (countLeftMisses s + 1) s)))) r).
Proof.
  destruct r as [s pid long out con]. cbn [mRoverStatus].
  intros Hleft Hl Hr. apply ltb_INT_MAX in Hl, Hr.
  run_hyps. reflexivity.
Qed.

(** The pass is defined when the counters can be incremented and, with a
    left target in sight, the path has a front. *)
Lemma cacheTargets_defined (r : Rover) :
  let s := mRoverStatus r in
  (Qeq_bool (Target.distance (mTargetLeft s)) (noTargetDist (nav cfg)) = false ->
   mPath s <> []) ->
  countersBelowMax s ->
  exists r1, cacheTargets cfg r = Ok (tt, r1).
Proof.
  intros s Hpath (Hhits & Hleft & Hright).
  destruct (Qeq_bool (Target.distance (mTargetLeft s)) (noTargetDist (nav cfg)))
    eqn:Hseen.
  - eexists. apply cacheTargets_undetected; assumption.
  - destruct (mPath s) as [ | front rest] eqn:Hfront.
    + exfalso. apply Hpath; reflexivity.
    + destruct (cacheTargets_detected r Hseen Hfront Hhits Hright) as (r1 & H1 & _).
      exists r1. exact H1.
Qed.

(** The check on the left cache: past [cacheMissMax] misses it empties the
    left slot and clears the left counters, otherwise it changes nothing;
    the right side is not touched. *)
Lemma resetLeftCache_run (r : Rover) :
  exists r',
    resetLeftCache cfg r = Ok (tt, r') /\
    let s := mRoverStatus r in
    let s' := mRoverStatus r' in
    (cacheMissMax (nav cfg) < inject_Z (countLeftMisses s) ->
     mCTargetLeft s' = emptyTarget /\
     countLeftHits s' = 0%Z /\ countLeftMisses s' = 0%Z) /\
    (inject_Z (countLeftMisses s) <= cacheMissMax (nav cfg) -> r' = r) /\
    mCTargetRight s' = mCTargetRight s /\
    countRightHits s' = countRightHits s /\
    countRightMisses s' = countRightMisses s.
Proof.
  destruct r as [s pid long out con].
  destruct (Qltb (cacheMissMax (nav cfg)) (inject_Z (countLeftMisses s))) eqn:E;
    (eexists; split; [run_hyps; reflexivity | ]); members.
  - apply Qltb_true in E. repeat split; intros; exfalso; lra.
  - apply Qltb_false in E. repeat split; intros; exfalso; lra.
Qed.

(** The check on the right cache, likewise. *)
Lemma resetRightCache_run (r : Rover) :
  exists r',
    resetRightCache cfg r = Ok (tt, r') /\
    let s := mRoverStatus r in
    let s' := mRoverStatus r' in
    (cacheMissMax (nav cfg) < inject_Z (countRightMisses s) ->
     mCTargetRight s' = emptyTarget /\
     countRightHits s' = 0%Z /\ countRightMisses s' = 0%Z) /\
    (inject_Z (countRightMisses s) <= cacheMissMax (nav cfg) -> r' = r) /\
    mCTargetLeft s' = mCTargetLeft s /\
    countLeftHits s' = countLeftHits s /\
    countLeftMisses s' = countLeftMisses s.
Proof.
  destruct r as [s pid long out con].
  destruct (Qltb (cacheMissMax (nav cfg)) (inject_Z (countRightMisses s))) eqn:E;
    (eexists; split; [run_hyps; reflexivity | ]); members.
  - apply Qltb_true in E. repeat split; intros; exfalso; lra.
  - apply Qltb_false in E. repeat split; intros; exfalso; lra.
Qed.

(** ** The transitions of [updateRover] *)

Lemma updateRover_off_off (r : Rover) (new : RoverStatus) :
  AutonState.is_auton (mAutonState (mRoverStatus r)) = false ->
  AutonState.is_auton (mAutonState new) = false ->
  updateRover cfg new r = Ok (false, r).
Proof. intros Hold Hnew. run_hyps. reflexivity. Qed.

Lemma updateRover_on_off (r : Rover) (new : RoverStatus) :
  AutonState.is_auton (mAutonState (mRoverStatus r)) = true ->
  AutonState.is_auton (mAutonState new) = false ->
  updateRover cfg new r =
  Ok (true, set_roverStatus (set_autonState (mAutonState new) (mRoverStatus r)) r).
Proof. intros Hold Hnew. run_hyps. reflexivity. Qed.

Lemma updateRover_on_on_same (r : Rover) (new : RoverStatus) :
  AutonState.is_auton (mAutonState (mRoverStatus r)) = true ->
  AutonState.is_auton (mAutonState new) = true ->
  dataChanged (mRoverStatus r) new = false ->
  updateRover cfg new r = Ok (true, r).
Proof. intros Hold Hnew Hsame. run_hyps. reflexivity. Qed.

Lemma updateRover_on_on_changed (r : Rover) (new : RoverStatus) :
  AutonState.is_auton (mAutonState (mRoverStatus r)) = true ->
  AutonState.is_auton (mAutonState new) = true ->
  dataChanged (mRoverStatus r) new = true ->
  updateRover cfg new r =
  (updateData new ;; cacheTargets cfg ;; resetLeftCache cfg ;;
   resetRightCache cfg ;; ret true) r.
Proof.
  intros Hold Hnew Hchanged.
  unfold updateRover, bind at 1, gets. rewrite Hold. cbn [negb].
  rewrite Hnew. cbn [negb]. unfold bind at 1. rewrite Hchanged. reflexivity.
Qed.

(** Once the data of a changed snapshot is taken over, the rest of the
    call is defined when the counters can be incremented and, with a left
    target in the snapshot, the path has a front; it then returns true. *)
Lemma updateRover_on_on_changed_defined (r : Rover) (new : RoverStatus) :
  AutonState.is_auton (mAutonState (mRoverStatus r)) = true ->
  AutonState.is_auton (mAutonState new) = true ->
  dataChanged (mRoverStatus r) new = true ->
  (Qeq_bool (Target.distance (mTargetLeft new)) (noTargetDist (nav cfg)) = false ->
   mPath (mRoverStatus r) <> []) ->
  countersBelowMax (mRoverStatus r) ->
  exists r', updateRover cfg new r = Ok (true, r').
Proof.
  intros Hold Hnew Hchanged Hpath Hcounters.
  rewrite updateRover_on_on_changed by assumption.
  unfold bind. rewrite updateData_run.
  match goal with |- context [cacheTargets cfg ?r0] =>
    destruct (cacheTargets_defined r0) as (r1 & H1); [exact Hpath | exact Hcounters | ]
  end.
  rewrite H1.
  destruct (resetLeftCache_run r1) as (r2 & H2 & _). rewrite H2.
  destruct (resetRightCache_run r2) as (r3 & H3 & _). rewrite H3.
  exists r3. reflexivity.
Qed.

(** A call that returns gives true unless both the rover and the snapshot
    are off. *)
Lemma updateRover_returns (r r' : Rover) (new : RoverStatus) (b : bool) :
  updateRover cfg new r = Ok (b, r') ->
  b = AutonState.is_auton (mAutonState (mRoverStatus r)) ||
      AutonState.is_auton (mAutonState new).
Proof.
  destruct (AutonState.is_auton (mAutonState (mRoverStatus r))) eqn:Hold;
    destruct (AutonState.is_auton (mAutonState new)) eqn:Hnew; cbn [orb].
  - destruct (dataChanged (mRoverStatus r) new) eqn:Hchanged.
    + rewrite updateRover_on_on_changed by assumption.
      unfold bind. rewrite updateData_run.
      destruct (cacheTargets cfg _) as [[[] r1] | ]; [ | discriminate].
      destruct (resetLeftCache_run r1) as (r2 & H2 & _). rewrite H2.
      destruct (resetRightCache_run r2) as (r3 & H3 & _). rewrite H3.
      unfold ret. congruence.
    + rewrite updateRover_on_on_same by assumption. congruence.
  - rewrite updateRover_on_off by assumption. congruence.
  - unfold updateRover, bind, gets. rewrite Hold, Hnew.
    destruct (RoverStatus_assign new r) as [[[] r1] | ]; [ | discriminate].
    unfold modify_rover, ret. congruence.
  - rewrite updateRover_off_off by assumption. congruence.
Qed.

(** ** The claims about [updateRover] *)

(** C7.  After a transition from off to on, [pathTargets] is the number of
    waypoints of the adopted course that are flagged [search] or [gate],
    and the path holds the waypoints of the course, in order. *)
Theorem updateRover_off_on_pathTargets (r : Rover) (new : RoverStatus) :
  AutonState.is_auton (mAutonState (mRoverStatus r)) = false ->
  AutonState.is_auton (mAutonState new) = true ->
  Course_wf (mCourse new) ->
  exists r',
    updateRover cfg new r = Ok (true, r') /\
    mCourse (mRoverStatus r') = mCourse new /\
    mPath (mRoverStatus r') = Course.waypoints (mCourse new) /\
    mPathTargets (mRoverStatus r') =
      countPathTargets (Course.waypoints (mCourse new)).
Proof.
  intros Hold Hnew Hwf.
  eexists. split; [apply updateRover_off_on; assumption | ].
  repeat split.
Qed.

(** The members that the transition from off to on takes from the
    snapshot, and the three that it leaves as they are: the navigation
    state and the two hit counters. *)
Theorem updateRover_off_on_members (r : Rover) (new : RoverStatus) :
  AutonState.is_auton (mAutonState (mRoverStatus r)) = false ->
  AutonState.is_auton (mAutonState new) = true ->
  Course_wf (mCourse new) ->
  exists r',
    updateRover cfg new r = Ok (true, r') /\
    let s := mRoverStatus r in
    let s' := mRoverStatus r' in
    (mAutonState s' = mAutonState new /\ mCourse s' = mCourse new /\
     mObstacle s' = mObstacle new /\ mOdometry s' = mOdometry new /\
     mTargetLeft s' = mTargetLeft new /\ mTargetRight s' = mTargetRight new /\
     mCTargetLeft s' = mCTargetLeft new /\ mCTargetRight s' = mCTargetRight new /\
     countLeftMisses s' = countLeftMisses new /\
     countRightMisses s' = countRightMisses new) /\
    (mCurrentState s' = mCurrentState s /\
     countLeftHits s' = countLeftHits s /\
     countRightHits s' = countRightHits s).
Proof.
  intros Hold Hnew Hwf.
  eexists. split; [apply updateRover_off_on; assumption | ].
  repeat split.
Qed.

(** C9.  [updateRover] returns false exactly when both the stored and the
    incoming auton flag are off, and true in every other case; with both
    flags on and no observable difference it returns true and changes
    nothing.  The call is defined, and so returns, whenever the course of
    the snapshot is well formed, the counters can be incremented and, with
    a left target in the snapshot, the path has a front. *)
Theorem updateRover_return_value (r : Rover) (new : RoverStatus) :
  let old_on := AutonState.is_auton (mAutonState (mRoverStatus r)) in
  let new_on := AutonState.is_auton (mAutonState new) in
  (old_on = false -> new_on = false -> updateRover cfg new r = Ok (false, r)) /\
  (old_on = true -> new_on = true -> dataChanged (mRoverStatus r) new = false ->
   updateRover cfg new r = Ok (true, r)) /\
  (forall b r', updateRover cfg new r = Ok (b, r') ->
     (b = false <-> old_on = false /\ new_on = false)) /\
  (Course_wf (mCourse new) ->
   countersBelowMax (mRoverStatus r) ->
   (Qeq_bool (Target.distance (mTargetLeft new)) (noTargetDist (nav cfg)) = false ->
    mPath (mRoverStatus r) <> []) ->
   exists r', updateRover cfg new r = Ok (old_on || new_on, r')).
Proof.
  intros old_on new_on.
  split; [apply updateRover_off_off | ].
  split; [apply updateRover_on_on_same | ].
  split.
  - intros b r' H. apply updateRover_returns in H. fold old_on new_on in H.
    subst b. split.
    + apply orb_false_elim.
    + intros [-> ->]. reflexivity.
  - intros Hwf Hcounters Hpath.
    destruct old_on eqn:Hold; destruct new_on eqn:Hnew; subst old_on new_on;
      cbn [orb].
    + destruct (dataChanged (mRoverStatus r) new) eqn:Hchanged.
      * apply updateRover_on_on_changed_defined; assumption.
      * eexists. apply updateRover_on_on_same; assumption.
    + eexists. apply updateRover_on_off; assumption.
    + eexists. apply updateRover_off_on; assumption.
    + eexists. apply updateRover_off_off; assumption.
Qed.

(** C10.  With both flags on, a changed snapshot and a left target in it,
    [updateRover] reads the front of the path without a guard: on an empty
    path the call is undefined, and it is defined (given counters that can
    be incremented) when the path is not empty. *)
Theorem updateRover_reads_path_front (r : Rover) (new : RoverStatus) :
  AutonState.is_auton (mAutonState (mRoverStatus r)) = true ->
  AutonState.is_auton (mAutonState new) = true ->
  dataChanged (mRoverStatus r) new = true ->
  Qeq_bool (Target.distance (mTargetLeft new)) (noTargetDist (nav cfg)) = false ->
  (mPath (mRoverStatus r) = [] ->
   updateRover cfg new r = UB FrontOfEmptyDeque) /\
  (mPath (mRoverStatus r) <> [] -> countersBelowMax (mRoverStatus r) ->
   exists r', updateRover cfg new r = Ok (true, r')).
Proof.
  intros Hold Hnew Hchanged Hleft. split.
  - intro Hpath.
    rewrite updateRover_on_on_changed by assumption.
    unfold bind. rewrite updateData_run.
    rewrite cacheTargets_empty_path; [reflexivity | exact Hleft | exact Hpath].
  - intros Hpath Hcounters.
    apply updateRover_on_on_changed_defined; auto.
Qed.

(** C2.  In a pass over a changed snapshot with both flags on and a left
    target detected, the left hit count goes up by one when the id of the
    left target is the id of the waypoint at the front of the path and back
    to 0 otherwise; the left target is promoted into the left cache slot,
    and the left miss count cleared, exactly when the hit count has then
    reached 3.  So a promotion needs a match on top of two earlier hits,
    and one mismatch clears the count.  [r1] is the state after lines
    289-334, from which the two checks of lines 336-352 finish the call. *)
Theorem updateRover_left_promotion (r : Rover) (new : RoverStatus)
    (front : Waypoint.t) (rest : list Waypoint.t) :
  let s := mRoverStatus r in
  AutonState.is_auton (mAutonState s) = true ->
  AutonState.is_auton (mAutonState new) = true ->
  dataChanged s new = true ->
  Qeq_bool (Target.distance (mTargetLeft new)) (noTargetDist (nav cfg)) = false ->
  mPath s = front :: rest ->
  (countLeftHits s < INT_MAX)%Z ->
  (countRightMisses s < INT_MAX)%Z ->
  let matched := (Target.id (mTargetLeft new) =? Waypoint.id front)%Z in
  exists r1,
    (updateData new ;; cacheTargets cfg) r = Ok (tt, r1) /\
    updateRover cfg new r =
      (resetLeftCache cfg ;; resetRightCache cfg ;; ret true) r1 /\
    let s1 := mRoverStatus r1 in
    countLeftHits s1 = (if matched then countLeftHits s + 1 else 0)%Z /\
    ((3 <= countLeftHits s1)%Z ->
     mCTargetLeft s1 = mTargetLeft new /\ countLeftMisses s1 = 0%Z) /\
    ((countLeftHits s1 < 3)%Z ->
     mCTargetLeft s1 = mCTargetLeft s /\
     countLeftMisses s1 = countLeftMisses s) /\
    ((3 <= countLeftHits s1)%Z -> matched = true /\ (2 <= countLeftHits s)%Z) /\
    (matched = false -> countLeftHits s1 = 0%Z).
Proof.
  intros s Hold Hnew Hchanged Hleft Hpath Hhits Hmisses matched.
  pose proof (updateData_run r new) as H0.
  match type of H0 with _ = Ok (tt, ?r0) =>
    destruct (@cacheTargets_detected r0 front rest)
      as (r1 & H1 & Hcount & Hyes & Hno);
      [exact Hleft | exact Hpath | exact Hhits | exact Hmisses | ]
  end.
  members_in Hcount. members_in Hyes. members_in Hno.
  fold s matched in Hcount, Hyes, Hno.
  exists r1.
  split; [unfold bind; rewrite H0; exact H1 | ].
  split.
  { rewrite updateRover_on_on_changed by assumption.
    unfold bind. rewrite H0, H1. reflexivity. }
  split; [exact Hcount | ]. split; [exact Hyes | ]. split; [exact Hno | ].
  rewrite Hcount. destruct matched; split; intros; try lia; auto.
Qed.

(** C3.  After the cache-stabilization pass, each side is checked on its
    own: a miss count above [cacheMissMax] empties that side's cache slot
    to [{-1, 0, 0}] and clears its hit and miss counts; a miss count up to
    the maximum leaves the slot and the counts as the pass left them.
    [r1] is the state when the checks begin, [r'] the state that the call
    leaves. *)
Theorem updateRover_cache_reset (r : Rover) (new : RoverStatus) :
  let s := mRoverStatus r in
  AutonState.is_auton (mAutonState s) = true ->
  AutonState.is_auton (mAutonState new) = true ->
  dataChanged s new = true ->
  (Qeq_bool (Target.distance (mTargetLeft new)) (noTargetDist (nav cfg)) = false ->
   mPath s <> []) ->
  countersBelowMax s ->
  exists r1 r',
    (updateData new ;; cacheTargets cfg) r = Ok (tt, r1) /\
    updateRover cfg new r = Ok (true, r') /\
    let s1 := mRoverStatus r1 in
    let s' := mRoverStatus r' in
    (cacheMissMax (nav cfg) < inject_Z (countLeftMisses s1) ->
     mCTargetLeft s' = emptyTarget /\
     countLeftHits s' = 0%Z /\ countLeftMisses s' = 0%Z) /\
    (inject_Z (countLeftMisses s1) <= cacheMissMax (nav cfg) ->
     mCTargetLeft s' = mCTargetLeft s1 /\
     countLeftHits s' = countLeftHits s1 /\
     countLeftMisses s' = countLeftMisses s1) /\
    (cacheMissMax (nav cfg) < inject_Z (countRightMisses s1) ->
     mCTargetRight s' = emptyTarget /\
     countRightHits s' = 0%Z /\ countRightMisses s' = 0%Z) /\
    (inject_Z (countRightMisses s1) <= cacheMissMax (nav cfg) ->
     mCTargetRight s' = mCTargetRight s1 /\
     countRightHits s' = countRightHits s1 /\
     countRightMisses s' = countRightMisses s1).
Proof.
  intros s Hold Hnew Hchanged Hpath Hcounters.
  rewrite updateRover_on_on_changed by assumption.
  unfold bind. rewrite updateData_run.
  match goal with |- context [cacheTargets cfg ?r0] =>
    destruct (cacheTargets_defined r0) as (r1 & H1); [exact Hpath | exact Hcounters | ]
  end.
  destruct (resetLeftCache_run r1)
    as (r2 & H2 & Lreset & Lkeep & LR1 & LR2 & LR3).
  destruct (resetRightCache_run r2)
    as (r3 & H3 & Rreset & Rkeep & RL1 & RL2 & RL3).
  cbv zeta in *.
  exists r1, r3. rewrite H1, H2, H3.
  split; [reflexivity | ]. split; [reflexivity | ].
  rewrite RL1, RL2, RL3. rewrite LR3 in Rreset, Rkeep.
  split; [exact Lreset | ].
  split; [intro H; rewrite (Lkeep H); repeat split | ].
  split; [exact Rreset | ].
  intro H. rewrite (Rkeep H). repeat split; assumption.
Qed.

(** ** The left hit count over a sequence of calls *)

Lemma push_waypoints_leftHits (remaining courseIndex : nat) (r r' : Rover) :
  push_waypoints remaining courseIndex r = Ok (tt, r') ->
  countLeftHits (mRoverStatus r') = countLeftHits (mRoverStatus r).
Proof.
  revert courseIndex r.
  induction remaining as [ | k IH]; intros i r; cbn [push_waypoints].
  - unfold ret. intro H. injection H as <-. reflexivity.
  - unfold bind at 1, gets.
    destruct (nth_error _ i) as [wp | ]; [ | discriminate].
    unfold bind at 1, modify at 1, modify_rover at 1.
    destruct (Waypoint.search wp || Waypoint.gate wp);
      unfold bind, modify, modify_rover, ret; intro H; apply IH in H;
      rewrite H; reflexivity.
Qed.

Lemma RoverStatus_assign_leftHits (new : RoverStatus) (r r' : Rover) :
  RoverStatus_assign new r = Ok (tt, r') ->
  countLeftHits (mRoverStatus r') = countLeftHits (mRoverStatus r).
Proof.
  destruct r as [s pid long out con].
  unfold RoverStatus_assign, bind, modify, modify_rover, gets. members.
  destruct (push_waypoints _ _ _) as [[[] r1] | ] eqn:Hpush; [ | discriminate].
  apply push_waypoints_leftHits in Hpush. revert Hpush. members.
  intros Hpush H. injection H as <-. exact Hpush.
Qed.

(** The left hit count after the sighting block of a pass that returns. *)
Lemma cacheTargets_leftHits (r r1 : Rover) :
  let s := mRoverStatus r in
  cacheTargets cfg r = Ok (tt, r1) ->
  countLeftHits (mRoverStatus r1) =
  (if Qeq_bool (Target.distance (mTargetLeft s)) (noTargetDist (nav cfg))
   then 0
   else match mPath s with
        | front :: _ =>
            if (Target.id (mTargetLeft s) =? Waypoint.id front)%Z
            then countLeftHits s + 1 else 0
        | [] => countLeftHits s
        end)%Z.
Proof.
  destruct r as [s pid long out con]. cbn [mRoverStatus].
  destruct (Qeq_bool (Target.distance (mTargetLeft s)) (noTargetDist (nav cfg)))
    eqn:Hseen.
  - run_hyps.
    destruct (countLeftMisses s <? INT_MAX)%Z; run; [ | discriminate].
    destruct (countRightMisses s <? INT_MAX)%Z; run; [ | discriminate].
    intro H. injection H as <-. reflexivity.
  - destruct (mPath s) as [ | front rest] eqn:Hpath; run_hyps; [discriminate | ].
    destruct (Target.id (mTargetLeft s) =? Waypoint.id front)%Z; run.
    + destruct (countLeftHits s <? INT_MAX)%Z; run; [ | discriminate].
      destruct (3 <=? countLeftHits s + 1)%Z; run;
        destruct (Qeq_bool (Target.distance (mTargetRight s)) _); run;
        try (destruct (countRightMisses s <? INT_MAX)%Z; run; [ | discriminate]);
        intro H; injection H as <-; reflexivity.
    + change (3 <=? 0)%Z with false. run.
      destruct (Qeq_bool (Target.distance (mTargetRight s)) _); run;
        try (destruct (countRightMisses s <? INT_MAX)%Z; run; [ | discriminate]);
        intro H; injection H as <-; reflexivity.
Qed.

(** One call moves the left hit count no further than the event allows. *)
Lemma updateRover_leftHits_step (r r' : Rover) (new : RoverStatus) (b : bool) :
  updateRover cfg new r = Ok (b, r') ->
  (0 <= countLeftHits (mRoverStatus r))%Z ->
  (0 <= countLeftHits (mRoverStatus r') <=
   streakAfter (countLeftHits (mRoverStatus r)) (leftEvent cfg r new))%Z.
Proof.
  intros Hrun Hpos. unfold leftEvent.
  destruct (AutonState.is_auton (mAutonState (mRoverStatus r))) eqn:Hold;
    destruct (AutonState.is_auton (mAutonState new)) eqn:Hnew; cbn [andb].
  - destruct (dataChanged (mRoverStatus r) new) eqn:Hchanged.
    + rewrite updateRover_on_on_changed in Hrun by assumption.
      unfold bind in Hrun. rewrite updateData_run in Hrun.
      destruct (cacheTargets cfg _) as [[[] r1] | ] eqn:Hpass; [ | discriminate].
      pose proof (cacheTargets_leftHits _ Hpass) as Hhits. members_in Hhits.
      destruct (resetLeftCache_run r1) as (r2 & H2 & Lreset & Lkeep & _).
      destruct (resetRightCache_run r2) as (r3 & H3 & _ & _ & _ & Rhits & _).
      rewrite H2, H3 in Hrun. unfold ret in Hrun. injection Hrun as _ <-.
      cbv zeta in Lreset, Lkeep, Rhits. rewrite Rhits.
      assert (Hle : (0 <= countLeftHits (mRoverStatus r1) ->
                     0 <= countLeftHits (mRoverStatus r2)
                       <= countLeftHits (mRoverStatus r1))%Z).
      { destruct (Qlt_le_dec (cacheMissMax (nav cfg))
                    (inject_Z (countLeftMisses (mRoverStatus r1)))) as [Hm | Hm].
        - destruct (Lreset Hm) as (_ & -> & _). lia.
        - rewrite (Lkeep Hm). lia. }
      destruct (Qeq_bool (Target.distance (mTargetLeft new))
                  (noTargetDist (nav cfg))) eqn:Hseen.
      * cbn [streakAfter]. lia.
      * destruct (mPath (mRoverStatus r)) as [ | front rest] eqn:Hpath.
        -- rewrite cacheTargets_empty_path in Hpass;
             [discriminate | exact Hseen | exact Hpath].
        -- destruct (Target.id (mTargetLeft new) =? Waypoint.id front)%Z;
             cbn [streakAfter]; lia.
    + rewrite updateRover_on_on_same in Hrun by assumption.
      injection Hrun as _ <-. cbn [streakAfter]. lia.
  - rewrite updateRover_on_off in Hrun by assumption.
    injection Hrun as _ <-. cbn [streakAfter]. members. lia.
  - unfold updateRover, bind, gets in Hrun. rewrite Hold, Hnew in Hrun.
    destruct (RoverStatus_assign new r) as [[[] r1] | ] eqn:Hassign;
      [ | discriminate].
    apply RoverStatus_assign_leftHits in Hassign.
    unfold modify_rover, ret in Hrun. injection Hrun as _ <-.
    cbn [streakAfter]. members. lia.
  - rewrite updateRover_off_off in Hrun by assumption.
    injection Hrun as _ <-. cbn [streakAfter]. lia.
Qed.

Lemma streakAfter_mono (h streak : Z) (event : LeftEvent) :
  (h <= streak)%Z -> (streakAfter h event <= streakAfter streak event)%Z.
Proof. destruct event; cbn [streakAfter]; lia. Qed.

(** Over any sequence of calls that return, the left hit count never
    exceeds the number of matching sightings in a row: starting from a
    count of 0, a count of 3, which a promotion needs, takes three
    matching sightings with no mismatch and no missed target between
    them. *)
Theorem updateRoverAll_leftHits_streak (snapshots : list RoverStatus)
    (r r' : Rover) (streak : Z) :
  updateRoverAll cfg snapshots r = Ok (tt, r') ->
  (0 <= countLeftHits (mRoverStatus r) <= streak)%Z ->
  (0 <= countLeftHits (mRoverStatus r') <= leftStreak cfg snapshots r streak)%Z.
Proof.
  revert r streak.
  induction snapshots as [ | new later IH]; intros r streak Hrun Hinv.
  - cbn in Hrun. unfold ret in Hrun. injection Hrun as <-. exact Hinv.
  - cbn [updateRoverAll leftStreak] in Hrun |- *.
    unfold bind in Hrun. unfold stateAfter.
    destruct (updateRover cfg new r) as [[b r1] | ] eqn:Hstep; [ | discriminate].
    apply (IH r1); [exact Hrun | ].
    pose proof (@updateRover_leftHits_step _ _ _ _ Hstep (proj1 Hinv)) as Hbound.
    pose proof (streakAfter_mono (leftEvent cfg r new) (proj2 Hinv)).
    lia.
Qed.

End Properties.

(** * The claims on concrete runs *)

Lemma sampleCourse_wf : Course_wf sampleCourse.
Proof. split; [reflexivity | unfold INT_MAX; cbn; lia]. Qed.

Lemma emptyCourse_wf : Course_wf emptyCourse.
Proof. split; [reflexivity | unfold INT_MAX; cbn; lia]. Qed.

(** C5 on a run: heading 20 degrees, bearing 25 degrees, five metres to
    go; the effort is 1/20, the left wheel runs at 1 and the right one at
    19/20. *)
Lemma drive_OnCourse_velocities_witness :
  let r' := stateAfter (drive sampleConfig 5 25 false) roverOn in
  drive sampleConfig 5 25 false roverOn = Ok (OnCourse, r') /\
  pidEffort roverOn 25 == 1 # 20 /\
  exists left_vel right_vel,
    lcm_published r' =
      [("/autonomous/auton_drive_control"%string,
        {| AutonDriveControl.left_percent_velocity := left_vel;
           AutonDriveControl.right_percent_velocity := right_vel |})] /\
    left_vel == 1 /\ right_vel == 19 # 20.
Proof.
  intro r'.
  assert (Hrun : drive sampleConfig 5 25 false roverOn = Ok (OnCourse, r'))
    by (vm_compute; reflexivity).
  assert (He : pidEffort roverOn 25 == 1 # 20) by (vm_compute; reflexivity).
  split; [exact Hrun | ]. split; [exact He | ].
  destruct (drive_OnCourse_velocities sampleConfig roverOn 5 25 false Hrun)
    as (left_vel & right_vel & Hout & _ & _ & _ & _ & _ & Hleft & _ & Habs).
  exists left_vel, right_vel.
  split; [exact Hout | ].
  rewrite He in Hleft, Habs.
  split; [apply Hleft; discriminate | ].
  destruct Habs as [Hright _]; [vm_compute; discriminate | ].
  rewrite Hright by discriminate. vm_compute. reflexivity.
Defined.

(** C7 on a run: a course of five waypoints, two of them flagged
    [search], gives two path targets. *)
Lemma updateRover_off_on_pathTargets_witness :
  exists r',
    updateRover sampleConfig
      (snapshot true sampleCourse 20 emptyTarget emptyTarget) initialRover =
    Ok (true, r') /\
    mPath (mRoverStatus r') = Course.waypoints sampleCourse /\
    mPathTargets (mRoverStatus r') = 2%Z.
Proof.
  destruct (@updateRover_off_on_pathTargets sampleExternals sampleConfig
              initialRover (snapshot true sampleCourse 20 emptyTarget emptyTarget)
              eq_refl eq_refl sampleCourse_wf)
    as (r' & Hrun & _ & Hpath & Htargets).
  exists r'. split; [exact Hrun | ]. split; [exact Hpath | exact Htargets].
Defined.

(** C2 on a run: post 7 is at the front of the path and has been seen
    twice; the third sighting brings the hit count to 3, and the left cache
    slot takes the target. *)
Lemma updateRover_left_promotion_witness :
  let new := snapshot true sampleCourse 20 (post7 7) emptyTarget in
  countLeftHits (mRoverStatus roverTwoHits) = 2%Z /\
  exists r1,
    (updateData new ;; cacheTargets sampleConfig) roverTwoHits = Ok (tt, r1) /\
    countLeftHits (mRoverStatus r1) = 3%Z /\
    mCTargetLeft (mRoverStatus r1) = post7 7 /\
    countLeftMisses (mRoverStatus r1) = 0%Z.
Proof.
  intro new. split; [reflexivity | ].
  destruct (@updateRover_left_promotion sampleExternals sampleConfig
              roverTwoHits new (waypoint 7 true)
              [waypoint 8 false; waypoint 9 false; waypoint 10 true;
               waypoint 11 false]
              eq_refl eq_refl eq_refl eq_refl eq_refl eq_refl eq_refl)
    as (r1 & Hrun & _ & Hcount & Hpromoted & _).
  exists r1. split; [exact Hrun | ].
  change (countLeftHits (mRoverStatus r1) = 3%Z) in Hcount.
  split; [exact Hcount | ].
  apply Hpromoted. rewrite Hcount. discriminate.
Defined.

(** C3 on a run: [cacheMissMax] is 5 and the left target has been missed
    five times since its promotion; the sixth miss empties the left slot. *)
Lemma updateRover_cache_reset_witness :
  let new := snapshot true sampleCourse 26 emptyTarget emptyTarget in
  mCTargetLeft (mRoverStatus roverFiveMisses) = post7 7 /\
  countLeftMisses (mRoverStatus roverFiveMisses) = 5%Z /\
  exists r',
    updateRover sampleConfig new roverFiveMisses = Ok (true, r') /\
    mCTargetLeft (mRoverStatus r') = emptyTarget /\
    countLeftHits (mRoverStatus r') = 0%Z /\
    countLeftMisses (mRoverStatus r') = 0%Z /\
    mCTargetRight (mRoverStatus r') = emptyTarget /\
    countRightMisses (mRoverStatus r') = 3%Z.
Proof.
  intro new. split; [reflexivity | ]. split; [reflexivity | ].
  assert (Hcounters : countersBelowMax (mRoverStatus roverFiveMisses))
    by (repeat split).
  assert (Hpath : mPath (mRoverStatus roverFiveMisses) <> [])
    by discriminate.
  destruct (@updateRover_cache_reset sampleExternals sampleConfig
              roverFiveMisses new eq_refl eq_refl eq_refl
              (fun _ => Hpath) Hcounters)
    as (r1 & r' & Hpass & Hrun & Lreset & _ & _ & Rkeep).
  exists r'. split; [exact Hrun | ].
  vm_compute in Hpass. injection Hpass as <-.
  destruct Lreset as (Hslot & Hhits & Hmisses); [reflexivity | ].
  destruct Rkeep as (Hright & _ & Hrmisses); [discriminate | ].
  repeat split; assumption.
Defined.

(** C9 on runs: off and off returns false; on and on returns true, also
    for a snapshot that repeats the stored data. *)
Lemma updateRover_return_value_witness :
  updateRover sampleConfig
    (snapshot false sampleCourse 20 emptyTarget emptyTarget) initialRover =
  Ok (false, initialRover) /\
  updateRover sampleConfig
    (snapshot true sampleCourse 20 (post7 8) emptyTarget) roverTwoHits =
  Ok (true, roverTwoHits) /\
  exists r',
    updateRover sampleConfig
      (snapshot true sampleCourse 20 (post7 7) emptyTarget) roverTwoHits =
    Ok (true, r').
Proof.
  split; [ | split].
  - apply (proj1 (@updateRover_return_value sampleExternals sampleConfig
                    initialRover
                    (snapshot false sampleCourse 20 emptyTarget emptyTarget)));
      reflexivity.
  - apply (proj1 (proj2 (@updateRover_return_value sampleExternals sampleConfig
                           roverTwoHits
                           (snapshot true sampleCourse 20 (post7 8) emptyTarget))));
      reflexivity.
  - apply (proj2 (proj2 (proj2 (@updateRover_return_value sampleExternals
                                  sampleConfig roverTwoHits
                                  (snapshot true sampleCourse 20 (post7 7)
                                     emptyTarget))))).
    + exact sampleCourse_wf.
    + repeat split.
    + discriminate.
Defined.

(** C10 on a run: a rover switched on with a course that has no waypoint
    has an empty path; the next snapshot that shows a left target makes
    [updateRover] read the front of the empty path. *)
Lemma updateRover_reads_path_front_witness :
  mPath (mRoverStatus roverOnEmptyCourse) = [] /\
  updateRover sampleConfig
    (snapshot true emptyCourse 20 (post7 3) emptyTarget) roverOnEmptyCourse =
  UB FrontOfEmptyDeque.
Proof.
  split; [reflexivity | ].
  apply (proj1 (@updateRover_reads_path_front sampleExternals sampleConfig
                  roverOnEmptyCourse
                  (snapshot true emptyCourse 20 (post7 3) emptyTarget)
                  eq_refl eq_refl eq_refl eq_refl)).
  reflexivity.
Defined.

(** ** Where the code departs from the claims *)

(** C4.  Rounding an obstacle with [minTurningEffort] at 1/2, heading 20
    degrees, [turn( 10 )]: the PID effort is -1/10, and the command that
    [turn] publishes is built from -1/10 itself, a magnitude below the
    minimum.  The signed minimum is -1/2 here, and [fabs( turningEffort )]
    is never below a negative number, so the floor is not applied to a
    negative effort. *)
Theorem turn_negative_effort_below_minimum :
  isTurningAroundObstacle (mCurrentState (mRoverStatus roverTurning)) = true /\
  minTurningEffort (nav sampleConfig) == 1 # 2 /\
  pidEffort roverTurning 10 == - (1 # 10) /\
  exists r',
    turn sampleConfig 10 roverTurning = Ok (false, r') /\
    lcm_published r' =
      [("/autonomous/auton_drive_control"%string,
        {| AutonDriveControl.left_percent_velocity := - (1 # 10);
           AutonDriveControl.right_percent_velocity := 1 # 10 |})] /\
    Qabs (- (1 # 10)) < minTurningEffort (nav sampleConfig).
Proof.
  split; [reflexivity | ]. split; [reflexivity | ]. split; [reflexivity | ].
  eexists. split; [vm_compute; reflexivity | ].
  split; reflexivity.
Qed.

(** C8.  A rover that counted two left hits and was switched off keeps the
    count of two when it is switched on again with a fresh snapshot, whose
    own count is zero: [operator=] copies the miss counters and leaves the
    hit counters out.  One sighting of the post after the restart then
    promotes it into the left cache slot. *)
Theorem updateRover_off_on_keeps_hit_counts :
  let new := snapshot true sampleCourse 26 emptyTarget emptyTarget in
  AutonState.is_auton (mAutonState (mRoverStatus roverStopped)) = false /\
  countLeftHits (mRoverStatus roverStopped) = 2%Z /\
  countLeftHits new = 0%Z /\
  exists r',
    updateRover sampleConfig new roverStopped = Ok (true, r') /\
    countLeftMisses (mRoverStatus r') = countLeftMisses new /\
    countRightMisses (mRoverStatus r') = countRightMisses new /\
    countLeftHits (mRoverStatus r') = 2%Z /\
    countLeftHits (mRoverStatus r') <> countLeftHits new /\
    exists r'',
      updateRover sampleConfig
        (snapshot true sampleCourse 26 (post7 3) emptyTarget) r' =
      Ok (true, r'') /\
      mCTargetLeft (mRoverStatus r'') = post7 3.
Proof.
  intro new. repeat (split; [reflexivity | ]).
  eexists. split; [vm_compute; reflexivity | ].
  repeat (split; [reflexivity | ]).
  split; [discriminate | ].
  eexists. split; [vm_compute; reflexivity | reflexivity].
Qed.

(** The effort of [turn] on the run of C4: the effort used is the PID
    effort -1/10 itself. *)
Lemma turn_around_obstacle_effort_witness :
  pidEffort roverTurning 10 == - (1 # 10) /\
  exists used left_vel right_vel r',
    turn sampleConfig 10 roverTurning = Ok (false, r') /\
    lcm_published r' =
      [("/autonomous/auton_drive_control"%string,
        {| AutonDriveControl.left_percent_velocity := left_vel;
           AutonDriveControl.right_percent_velocity := right_vel |})] /\
    used = pidEffort roverTurning 10.
Proof.
  split; [reflexivity | ].
  destruct (@turn_around_obstacle_effort sampleExternals sampleConfig
              roverTurning 10 eq_refl eq_refl)
    as (used & left_vel & right_vel & r' & Hrun & Hout & _ & _ & _ & Hneg).
  exists used, left_vel, right_vel, r'.
  split; [exact Hrun | ]. split; [exact Hout | ].
  apply Hneg; [reflexivity | discriminate].
Defined.

(** The members on the run of C8: the restart takes the miss counters of
    the snapshot and keeps the two hits counted before the stop. *)
Lemma updateRover_off_on_members_witness :
  exists r',
    updateRover sampleConfig
      (snapshot true sampleCourse 26 emptyTarget emptyTarget) roverStopped =
    Ok (true, r') /\
    countRightMisses (mRoverStatus r') = 0%Z /\
    countLeftHits (mRoverStatus r') = 2%Z.
Proof.
  destruct (@updateRover_off_on_members sampleExternals sampleConfig
              roverStopped (snapshot true sampleCourse 26 emptyTarget emptyTarget)
              eq_refl eq_refl sampleCourse_wf)
    as (r' & Hrun & Hcopied & _ & Hhits & _).
  exists r'. split; [exact Hrun | ].
  split; [apply Hcopied | exact Hhits].
Defined.

(** The streak on the run of C2: three matching sightings in a row after
    the start give a streak of 3, and the hit count is 3. *)
Lemma updateRoverAll_leftHits_streak_witness :
  let sightings :=
    [snapshot true sampleCourse 20 (post7 9) emptyTarget;
     snapshot true sampleCourse 20 (post7 8) emptyTarget;
     snapshot true sampleCourse 20 (post7 7) emptyTarget] in
  updateRoverAll sampleConfig sightings roverOn = Ok (tt, roverPromoted) /\
  leftStreak sampleConfig sightings roverOn 0 = 3%Z /\
  (0 <= countLeftHits (mRoverStatus roverPromoted) <= 3)%Z.
Proof.
  intro sightings.
  assert (Hrun : updateRoverAll sampleConfig sightings roverOn
                 = Ok (tt, roverPromoted)) by (vm_compute; reflexivity).
  split; [exact Hrun | ]. split; [vm_compute; reflexivity | ].
  apply (@updateRoverAll_leftHits_streak sampleExternals sampleConfig
           sightings roverOn roverPromoted 0%Z Hrun).
  split; discriminate.
Defined.

(** * Further properties of the controller *)

(** ** What the control operations leave alone *)

Lemma drive_command_inRange (channel : string) (e : Q) :
  inRange (channel,
           {| AutonDriveControl.left_percent_velocity :=
                std_min 1 (std_max 0 (1 + e));
              AutonDriveControl.right_percent_velocity :=
                std_min 1 (std_max 0 (1 - e)) |}).
Proof.
  destruct (drive_velocity_mapping e) as (Hl & Hr & _).
  cbv zeta in Hl, Hr. unfold inRange. cbn [snd
    AutonDriveControl.left_percent_velocity
    AutonDriveControl.right_percent_velocity].
  lra.
Qed.

Lemma turn_command_inRange (channel : string) (e : Q) :
  inRange (channel,
           {| AutonDriveControl.left_percent_velocity :=
                std_max (std_min 1 e) (-1);
              AutonDriveControl.right_percent_velocity :=
                std_max (std_min 1 (- e)) (-1) |}).
Proof.
  destruct (turn_velocity_mapping e) as (_ & Hl & Hr).
  cbv zeta in Hl, Hr. unfold inRange. cbn [snd
    AutonDriveControl.left_percent_velocity
    AutonDriveControl.right_percent_velocity].
  lra.
Qed.

(** Closes a [controlStep] goal whose computation has been run. *)
Ltac control_rest :=
  split; [reflexivity | ];
  members;
  split; [reflexivity | ];
  split; [reflexivity | ];
  split; [rewrite ?app_nil_r; reflexivity | ];
  split; [cbn; lia | ];
  repeat constructor;
  first [ apply drive_command_inRange | apply turn_command_inRange
        | cbn; lra ].

Ltac control_done :=
  first [ eexists _, _, []; control_rest | eexists _, _, [_]; control_rest ].

Section ControlProperties.

Context {ext : Externals} {geo : Geodetic}.
Variable cfg : RoverConfig.

Lemma drive_controlStep (r : Rover) (distance bearing : Q) (target : bool) :
  controlStep (drive cfg distance bearing target) r.
Proof.
  unfold controlStep. destruct r as [s pid long out con]. run.
  destruct (_ || _); [control_done | ].
  destruct (Qltb (fabs _) _); [ | control_done].
  destruct (PidLoop_update _ _ _) as [effort pid']. control_done.
Qed.

Lemma turn_controlStep (r : Rover) (bearing : Q) :
  controlStep (turn cfg bearing) r.
Proof.
  unfold controlStep. destruct r as [s pid long out con]. run.
  destruct (Qle_bool _ _); [control_done | ].
  destruct (PidLoop_update _ _ _) as [effort pid']. members.
  control_done.
Qed.

(** Every control operation ([drive] in its three forms, [turn] in its
    two forms and [stop]) returns, leaves the rover status and the
    conversion factor untouched, and publishes at most one command, whose
    two velocities lie in [-1, 1]; [stop] publishes the command (0, 0). *)
Theorem control_operations_frame (r : Rover) :
  (forall distance bearing target,
     controlStep (drive cfg distance bearing target) r) /\
  (forall destination, controlStep (drive_destination cfg destination) r) /\
  (forall direction bearing,
     controlStep (drive_direction cfg direction bearing) r) /\
  (forall bearing, controlStep (turn cfg bearing) r) /\
  (forall destination, controlStep (turn_destination cfg destination) r) /\
  controlStep (stop cfg) r /\
  (exists r',
     stop cfg r = Ok (tt, r') /\
     lcm_published r' =
       lcm_published r ++
       [(autonDriveControlChannel cfg,
         {| AutonDriveControl.left_percent_velocity := 0;
            AutonDriveControl.right_percent_velocity := 0 |})]).
Proof.
  split; [intros; apply drive_controlStep | ].
  split.
  { intro destination. unfold drive_destination, bind, gets.
    apply drive_controlStep. }
  split.
  { intros direction bearing. unfold controlStep, drive_direction.
    destruct r as [s pid long out con]. run.
    destruct (PidLoop_update _ _ _) as [effort pid']. members.
    control_done. }
  split; [intros; apply turn_controlStep | ].
  split.
  { intro destination. unfold turn_destination, bind, gets.
    apply turn_controlStep. }
  split.
  { unfold controlStep. destruct r as [s pid long out con]. run.
    control_done. }
  destruct r as [s pid long out con]. run. eexists. split; reflexivity.
Qed.

End ControlProperties.

(** ** The decisions of [drive] and [turn] *)

Section Decisions.

Context {ext : Externals} {geo : Geodetic}.
Variable cfg : RoverConfig.

Lemma drive_run (r : Rover) (distance bearing : Q) (target : bool) :
  drive cfg distance bearing target r =
  if Qltb distance (arrivalDistance cfg target) then Ok (Arrived, r)
  else if Qltb (fabs (destinationOf r bearing - headingOf r))
            (drivingBearing (nav cfg))
  then
    let step := PidLoop_update (mBearingPid r) (headingOf r)
                  (destinationOf r bearing) in
    Ok (OnCourse,
        add_published
          (autonDriveControlChannel cfg,
           {| AutonDriveControl.left_percent_velocity :=
                std_min 1 (std_max 0 (1 + fst step));
              AutonDriveControl.right_percent_velocity :=
                std_min 1 (std_max 0 (1 - fst step)) |})
          (set_bearingPid (snd step) r))
  else Ok (OffCourse, add_console (Cerr, [Str "offcourse\n"]) r).
Proof.
  unfold arrivalDistance, destinationOf, headingOf.
  destruct r as [s pid long out con]. run.
  destruct target; cbn [negb andb orb];
    destruct (Qltb distance _); cbn [orb]; try reflexivity;
    destruct (Qltb (fabs _) _); try reflexivity;
    destruct (PidLoop_update _ _ _) as [e pid']; reflexivity.
Qed.




(** [drive( direction, bearing )] never looks at the distance or at its
    [direction]: it always advances the PID loop and publishes one command,
    the one that [drive( distance, bearing, target )] publishes from the
    same state whenever that call returns [OnCourse]. *)
Theorem drive_direction_publishes (r : Rover) (direction : Z) (bearing : Q) :
  let step := PidLoop_update (mBearingPid r) (headingOf r)
                (destinationOf r bearing) in
  exists r',
    drive_direction cfg direction bearing r = Ok (tt, r') /\
    (forall other, drive_direction cfg other bearing r = Ok (tt, r')) /\
    mBearingPid r' = snd step /\
    lcm_published r' =
      lcm_published r ++
      [(autonDriveControlChannel cfg,
        {| AutonDriveControl.left_percent_velocity :=
             std_min 1 (std_max 0 (1 + fst step));
           AutonDriveControl.right_percent_velocity :=
             std_min 1 (std_max 0 (1 - fst step)) |})] /\
    (forall distance target r1,
       drive cfg distance bearing target r = Ok (OnCourse, r1) ->
       lcm_published r1 = lcm_published r' /\
       mBearingPid r1 = mBearingPid r').
Proof.
  intro step.
  assert (Hrun : forall d,
    drive_direction cfg d bearing r =
    Ok (tt,
        add_published
          (autonDriveControlChannel cfg,
           {| AutonDriveControl.left_percent_velocity :=
                std_min 1 (std_max 0 (1 + fst step));
              AutonDriveControl.right_percent_velocity :=
                std_min 1 (std_max 0 (1 - fst step)) |})
          (add_console
             (Cout, [Str "publishing drive command: ";
                     Num (std_min 1 (std_max 0 (1 + fst step))); Str " , ";
                     Num (std_min 1 (std_max 0 (1 - fst step))); Endl])
             (set_bearingPid (snd step) r)))).
  { intro d. subst step. unfold drive_direction, destinationOf, headingOf.
    destruct r as [s pid long out con]. run.
    destruct (PidLoop_update _ _ _) as [e pid']. reflexivity. }
  eexists. split; [apply Hrun | ].
  split; [intro other; apply Hrun | ].
  split; [reflexivity | ]. split; [reflexivity | ].
  intros distance target r1. rewrite drive_run. fold step.
  destruct (Qltb distance _); [discriminate | ].
  destruct (Qltb (fabs _) _); [ | discriminate].
  cbv zeta. intro H. injection H as <-. split; reflexivity.
Qed.


End Decisions.

(** ** What [updateRover] leaves alone *)

Section UpdateProperties.

Context {ext : Externals}.
Variable cfg : RoverConfig.

Lemma Qeq_bool_same (x : Q) : Qeq_bool x x = true.
Proof. apply Qeq_bool_iff. reflexivity. Qed.

Lemma dataChanged_same (s new : RoverStatus) :
  mObstacle s = mObstacle new -> mOdometry s = mOdometry new ->
  mTargetLeft s = mTargetLeft new -> mTargetRight s = mTargetRight new ->
  dataChanged s new = false.
Proof.
  unfold dataChanged, isEqual_Obstacle, isEqual_Odometry, isEqual_Target.
  intros -> -> -> ->.
  rewrite !Qeq_bool_same, !Z.eqb_refl. reflexivity.
Qed.

(** The sighting block of a pass that returns changes the cache slots and
    the counters only. *)
Lemma cacheTargets_frame (r r1 : Rover) :
  cacheTargets cfg r = Ok (tt, r1) ->
  sameButCaches (mRoverStatus r) (mRoverStatus r1) /\ sameOutsideStatus r r1.
Proof.
  destruct r as [s pid long out con].
  unfold sameButCaches, sameOutsideStatus.
  destruct (Qeq_bool (Target.distance (mTargetLeft s)) (noTargetDist (nav cfg)))
    eqn:Hseen.
  - run_hyps.
    destruct (countLeftMisses s <? INT_MAX)%Z; run; [ | discriminate].
    destruct (countRightMisses s <? INT_MAX)%Z; run; [ | discriminate].
    intro H. injection H as <-. repeat split.
  - destruct (mPath s) as [ | front rest] eqn:Hpath; run_hyps; [discriminate | ].
    destruct (Target.id (mTargetLeft s) =? Waypoint.id front)%Z; run.
    + destruct (countLeftHits s <? INT_MAX)%Z; run; [ | discriminate].
      destruct (3 <=? countLeftHits s + 1)%Z; run;
        destruct (Qeq_bool (Target.distance (mTargetRight s)) _); run;
        try (destruct (countRightMisses s <? INT_MAX)%Z; run; [ | discriminate]);
        intro H; injection H as <-; members; rewrite ?Hpath; repeat split.
    + change (3 <=? 0)%Z with false. run.
      destruct (Qeq_bool (Target.distance (mTargetRight s)) _); run;
        try (destruct (countRightMisses s <? INT_MAX)%Z; run; [ | discriminate]);
        intro H; injection H as <-; members; rewrite ?Hpath; repeat split.
Qed.

Lemma resetLeftCache_frame (r r' : Rover) :
  resetLeftCache cfg r = Ok (tt, r') ->
  sameButCaches (mRoverStatus r) (mRoverStatus r') /\ sameOutsideStatus r r'.
Proof.
  destruct r as [s pid long out con].
  unfold sameButCaches, sameOutsideStatus. run.
  destruct (Qltb _ _); intro H; injection H as <-; repeat split.
Qed.

Lemma resetRightCache_frame (r r' : Rover) :
  resetRightCache cfg r = Ok (tt, r') ->
  sameButCaches (mRoverStatus r) (mRoverStatus r') /\ sameOutsideStatus r r'.
Proof.
  destruct r as [s pid long out con].
  unfold sameButCaches, sameOutsideStatus. run.
  destruct (Qltb _ _); intro H; injection H as <-; repeat split.
Qed.

Lemma sameButCaches_trans (s1 s2 s3 : RoverStatus) :
  sameButCaches s1 s2 -> sameButCaches s2 s3 -> sameButCaches s1 s3.
Proof.
  unfold sameButCaches.
  intros (A1 & A2 & A3 & A4 & A5 & A6 & A7 & A8 & A9)
         (B1 & B2 & B3 & B4 & B5 & B6 & B7 & B8 & B9).
  repeat split; congruence.
Qed.

Lemma sameOutsideStatus_trans (r1 r2 r3 : Rover) :
  sameOutsideStatus r1 r2 -> sameOutsideStatus r2 r3 -> sameOutsideStatus r1 r3.
Proof.
  unfold sameOutsideStatus.
  intros (A1 & A2 & A3 & A4) (B1 & B2 & B3 & B4).
  repeat split; congruence.
Qed.

(** Lines 295-352 as a whole: what a pass that returns has changed. *)
Lemma stabilization_frame (r r' : Rover) :
  (cacheTargets cfg ;; resetLeftCache cfg ;; resetRightCache cfg ;; ret true) r
    = Ok (true, r') ->
  sameButCaches (mRoverStatus r) (mRoverStatus r') /\ sameOutsideStatus r r'.
Proof.
  unfold bind, ret.
  destruct (cacheTargets cfg r) as [[[] r1] | ] eqn:H1; [ | discriminate].
  destruct (resetLeftCache cfg r1) as [[[] r2] | ] eqn:H2; [ | discriminate].
  destruct (resetRightCache cfg r2) as [[[] r3] | ] eqn:H3; [ | discriminate].
  intro H. injection H as <-.
  apply cacheTargets_frame in H1. apply resetLeftCache_frame in H2.
  apply resetRightCache_frame in H3.
  destruct H1, H2, H3. split.
  - eapply sameButCaches_trans; [ | eassumption].
    eapply sameButCaches_trans; eassumption.
  - eapply sameOutsideStatus_trans; [ | eassumption].
    eapply sameOutsideStatus_trans; eassumption.
Qed.

(** The loop of [operator=] writes the path and the target count only. *)
Lemma push_waypoints_writes (remaining courseIndex : nat) (r r' : Rover) :
  push_waypoints remaining courseIndex r = Ok (tt, r') ->
  exists path targets,
    r' = set_roverStatus
           (set_pathTargets targets (set_path path (mRoverStatus r))) r.
Proof.
  revert courseIndex r.
  induction remaining as [ | k IH]; intros i r; cbn [push_waypoints].
  - unfold ret. intro H. injection H as <-.
    exists (mPath (mRoverStatus r)), (mPathTargets (mRoverStatus r)).
    destruct r as [[] pid long out con]. reflexivity.
  - unfold bind at 1, gets.
    destruct (nth_error _ i) as [wp | ]; [ | discriminate].
    unfold bind at 1, modify at 1, modify_rover at 1.
    destruct (Waypoint.search wp || Waypoint.gate wp);
      unfold bind, modify, modify_rover, ret; intro H; apply IH in H;
      destruct H as (path & targets & ->); exists path, targets;
      destruct r as [[] pid long out con]; reflexivity.
Qed.

(** [operator=], when it returns: every member is the one of the snapshot
    but the navigation state and the two hit counters, which are kept, and
    the path and the target count, which the loop has written. *)
Lemma RoverStatus_assign_writes (new : RoverStatus) (r r' : Rover) :
  RoverStatus_assign new r = Ok (tt, r') ->
  exists path targets,
    r' = set_roverStatus
           (set_pathTargets targets
              (set_path path (assigned (mRoverStatus r) new))) r.
Proof.
  destruct r as [s pid long out con].
  unfold RoverStatus_assign, bind, modify, modify_rover, gets. members.
  destruct (push_waypoints _ _ _) as [[[] r1] | ] eqn:Hpush; [ | discriminate].
  apply push_waypoints_writes in Hpush. destruct Hpush as (path & targets & ->).
  intro H. injection H as <-. exists path, targets. reflexivity.
Qed.

(** A call of [updateRover] that returns has published nothing and has
    left the PID loop and the navigation state as they were; while the
    rover is on, it has also left
    the course, the path, the target count and the conversion factor as
    they were, and a snapshot that is on too leaves the auton state. *)
Theorem updateRover_frame (r r' : Rover) (new : RoverStatus) (b : bool) :
  updateRover cfg new r = Ok (b, r') ->
  let s := mRoverStatus r in
  let s' := mRoverStatus r' in
  lcm_published r' = lcm_published r /\
  mBearingPid r' = mBearingPid r /\
  mCurrentState s' = mCurrentState s /\
  (AutonState.is_auton (mAutonState s) = true ->
   mCourse s' = mCourse s /\ mPath s' = mPath s /\
   mPathTargets s' = mPathTargets s /\
   mLongMeterInMinutes r' = mLongMeterInMinutes r /\
   (AutonState.is_auton (mAutonState new) = true ->
    mAutonState s' = mAutonState s)).
Proof.
  intros Hrun s s'. subst s s'.
  destruct (AutonState.is_auton (mAutonState (mRoverStatus r))) eqn:Hold;
    destruct (AutonState.is_auton (mAutonState new)) eqn:Hnew.
  - destruct (dataChanged (mRoverStatus r) new) eqn:Hchanged.
    + rewrite updateRover_on_on_changed in Hrun by assumption.
      unfold bind at 1 in Hrun. rewrite updateData_run in Hrun.
      assert (b = true) as ->.
      { revert Hrun. unfold bind, ret.
        repeat (destruct (_ : result (unit * Rover)) as [[[] ?] | ];
                [ | discriminate]).
        congruence. }
      apply stabilization_frame in Hrun.
      destruct Hrun as ((A1 & A2 & A3 & A4 & A5 & A6 & A7 & A8 & A9)
                        & (B1 & B2 & B3 & B4)).
      revert A1 A2 A3 A4 A9 B1 B2 B3. members. intros.
      split; [exact B3 | ]. split; [exact B1 | ]. split; [exact A1 | ].
      intros _. split; [exact A3 | ]. split; [exact A4 | ].
      split; [exact A9 | ]. split; [exact B2 | ]. intros _. exact A2.
    + rewrite updateRover_on_on_same in Hrun by assumption.
      injection Hrun as _ <-. repeat split.
  - rewrite updateRover_on_off in Hrun by assumption.
    injection Hrun as _ <-. members. repeat split; discriminate.
  - unfold updateRover, bind, gets in Hrun. rewrite Hold, Hnew in Hrun.
    destruct (RoverStatus_assign new r) as [[[] r1] | ] eqn:Hassign;
      [ | discriminate].
    apply RoverStatus_assign_writes in Hassign.
    destruct Hassign as (path & targets & ->).
    unfold modify_rover, ret in Hrun. injection Hrun as _ <-.
    destruct r as [s pid long out con]. members.
    repeat split; discriminate.
  - rewrite updateRover_off_off in Hrun by assumption.
    injection Hrun as _ <-. repeat split; discriminate.
Qed.

(** Giving [updateRover] the snapshot that it has just been given changes
    nothing: the second call returns the auton flag of the snapshot and
    leaves the state of the first.  Sightings are counted once for each
    snapshot that differs from the stored data, not once for each call. *)
Theorem updateRover_repeat (r r' : Rover) (new : RoverStatus) (b : bool) :
  updateRover cfg new r = Ok (b, r') ->
  updateRover cfg new r' =
  Ok (AutonState.is_auton (mAutonState new), r').
Proof.
  intro Hrun.
  destruct (AutonState.is_auton (mAutonState (mRoverStatus r))) eqn:Hold;
    destruct (AutonState.is_auton (mAutonState new)) eqn:Hnew.
  - destruct (dataChanged (mRoverStatus r) new) eqn:Hchanged.
    + rewrite updateRover_on_on_changed in Hrun by assumption.
      unfold bind at 1 in Hrun. rewrite updateData_run in Hrun.
      assert (b = true) as ->.
      { revert Hrun. unfold bind, ret.
        repeat (destruct (_ : result (unit * Rover)) as [[[] ?] | ];
                [ | discriminate]).
        congruence. }
      apply stabilization_frame in Hrun.
      destruct Hrun as ((A1 & A2 & A3 & A4 & A5 & A6 & A7 & A8 & A9) & _).
      revert A2 A5 A6 A7 A8. members. intros.
      apply updateRover_on_on_same.
      * rewrite A2. exact Hold.
      * exact Hnew.
      * apply dataChanged_same; assumption.
    + rewrite updateRover_on_on_same in Hrun by assumption.
      injection Hrun as _ <-. apply updateRover_on_on_same; assumption.
  - rewrite updateRover_on_off in Hrun by assumption.
    injection Hrun as _ <-. apply updateRover_off_off; [ | exact Hnew].
    members. exact Hnew.
  - unfold updateRover, bind, gets in Hrun. rewrite Hold, Hnew in Hrun.
    destruct (RoverStatus_assign new r) as [[[] r1] | ] eqn:Hassign;
      [ | discriminate].
    apply RoverStatus_assign_writes in Hassign.
    destruct Hassign as (path & targets & ->).
    unfold modify_rover, ret in Hrun. injection Hrun as _ <-.
    apply updateRover_on_on_same; members; try exact Hnew.
    apply dataChanged_same; reflexivity.
  - rewrite updateRover_off_off in Hrun by assumption.
    injection Hrun as _ <-. apply updateRover_off_off; assumption.
Qed.

End UpdateProperties.

(** ** What counts as new data, and what a stop and a restart keep *)

Section SnapshotProperties.

Context {ext : Externals}.
Variable cfg : RoverConfig.



(** A stop followed by a restart: the stop changes the auton state only,
    and the restart takes the data, the caches and the miss counters of its
    snapshot, so after both calls the navigation state and the two hit
    counters are still the ones from before the stop. *)
Theorem updateRover_stop_restart (r : Rover) (stopped restarted : RoverStatus) :
  AutonState.is_auton (mAutonState (mRoverStatus r)) = true ->
  AutonState.is_auton (mAutonState stopped) = false ->
  AutonState.is_auton (mAutonState restarted) = true ->
  Course_wf (mCourse restarted) ->
  exists r1 r2,
    updateRover cfg stopped r = Ok (true, r1) /\
    updateRover cfg restarted r1 = Ok (true, r2) /\
    r1 = set_roverStatus
           (set_autonState (mAutonState stopped) (mRoverStatus r)) r /\
    mRoverStatus r2 = assigned (mRoverStatus r) restarted /\
    countLeftHits (mRoverStatus r2) = countLeftHits (mRoverStatus r) /\
    countRightHits (mRoverStatus r2) = countRightHits (mRoverStatus r) /\
    mCurrentState (mRoverStatus r2) = mCurrentState (mRoverStatus r).
Proof.
  intros Hon Hoff Hrestart Hwf.
  eexists _, _.
  split; [apply updateRover_on_off; assumption | ].
  split; [apply updateRover_off_on; [exact Hoff | exact Hrestart | exact Hwf] | ].
  repeat split.
Qed.

End SnapshotProperties.

(** ** The cache-stabilization pass, side by side *)

Section CacheProperties.

Context {ext : Externals}.
Variable cfg : RoverConfig.

(** The right side of the sighting block, with a left target in sight:
    a right target goes into the right slot at once and clears the right
    miss count; without one the right miss count goes up by one.  The
    right hit count is not written. *)
Lemma cacheTargets_detected_right (r : Rover) (front : Waypoint.t)
    (rest : list Waypoint.t) :
  let s := mRoverStatus r in
  Qeq_bool (Target.distance (mTargetLeft s)) (noTargetDist (nav cfg)) = false ->
  mPath s = front :: rest ->
  (countLeftHits s < INT_MAX)%Z ->
  (countRightMisses s < INT_MAX)%Z ->
  exists r1,
    cacheTargets cfg r = Ok (tt, r1) /\
    let s1 := mRoverStatus r1 in
    countRightHits s1 = countRightHits s /\
    (if Qeq_bool (Target.distance (mTargetRight s)) (noTargetDist (nav cfg))
     then mCTargetRight s1 = mCTargetRight s /\
          countRightMisses s1 = (countRightMisses s + 1)%Z
     else mCTargetRight s1 = mTargetRight s /\ countRightMisses s1 = 0%Z).
Proof.
  destruct r as [s pid long out con]. cbn [mRoverStatus].
  intros Hleft Hpath Hhits Hmisses.
  apply ltb_INT_MAX in Hhits, Hmisses.
  destruct (Target.id (mTargetLeft s) =? Waypoint.id front)%Z eqn:Hid.
  - destruct (3 <=? countLeftHits s + 1)%Z eqn:H3;
      destruct (Qeq_bool (Target.distance (mTargetRight s))
                  (noTargetDist (nav cfg))) eqn:Hright;
      (eexists; split; [run_hyps; reflexivity | ]); members;
      repeat split.
  - destruct (Qeq_bool (Target.distance (mTargetRight s))
                (noTargetDist (nav cfg))) eqn:Hright;
      (eexists; split; [run_hyps; reflexivity | ]); members;
      repeat split.
Qed.

(** A right target is cached at its first sighting, provided a left target
    is in sight too: after a pass over a changed snapshot with both targets
    detected, the right cache slot holds the right target of the snapshot
    and the right miss count is 0; the right hit count is not touched.
    [cacheMissMax] is not negative. *)
Theorem updateRover_right_target_cached (r : Rover) (new : RoverStatus)
    (front : Waypoint.t) (rest : list Waypoint.t) :
  let s := mRoverStatus r in
  AutonState.is_auton (mAutonState s) = true ->
  AutonState.is_auton (mAutonState new) = true ->
  dataChanged s new = true ->
  Qeq_bool (Target.distance (mTargetLeft new)) (noTargetDist (nav cfg)) = false ->
  Qeq_bool (Target.distance (mTargetRight new)) (noTargetDist (nav cfg)) = false ->
  mPath s = front :: rest ->
  (countLeftHits s < INT_MAX)%Z ->
  (countRightMisses s < INT_MAX)%Z ->
  0 <= cacheMissMax (nav cfg) ->
  exists r',
    updateRover cfg new r = Ok (true, r') /\
    mCTargetRight (mRoverStatus r') = mTargetRight new /\
    countRightMisses (mRoverStatus r') = 0%Z /\
    countRightHits (mRoverStatus r') = countRightHits s.
Proof.
  intros s Hold Hnew Hchanged Hleft Hright Hpath Hhits Hmisses Hmax.
  rewrite updateRover_on_on_changed by assumption.
  unfold bind. rewrite updateData_run.
  match goal with |- context [cacheTargets cfg ?r0] =>
    destruct (@cacheTargets_detected_right r0 front rest)
      as (r1 & H1 & Rhits & Rcache);
      [exact Hleft | exact Hpath | exact Hhits | exact Hmisses | ]
  end.
  members_in Rhits. members_in Rcache. rewrite Hright in Rcache.
  destruct Rcache as [Rslot Rmisses].
  rewrite H1.
  destruct (resetLeftCache_run cfg r1) as (r2 & H2 & _ & _ & LR1 & LR2 & LR3).
  destruct (resetRightCache_run cfg r2) as (r3 & H3 & _ & Rkeep & _).
  cbv zeta in LR1, LR2, LR3, Rkeep.
  rewrite H2, H3. exists r3. split; [reflexivity | ].
  rewrite Rkeep by (rewrite LR3, Rmisses; exact Hmax).
  rewrite LR1, LR2, LR3. repeat split; assumption.
Qed.

(** A pass without a left target: both hit counts go to 0 and both miss
    counts go up by one; a side whose miss count then exceeds
    [cacheMissMax] has its slot emptied and its miss count cleared, the
    other keeps its slot.  The right target of the snapshot is not cached,
    detected or not. *)
Theorem updateRover_no_left_target (r : Rover) (new : RoverStatus) :
  let s := mRoverStatus r in
  AutonState.is_auton (mAutonState s) = true ->
  AutonState.is_auton (mAutonState new) = true ->
  dataChanged s new = true ->
  Qeq_bool (Target.distance (mTargetLeft new)) (noTargetDist (nav cfg)) = true ->
  (countLeftMisses s < INT_MAX)%Z ->
  (countRightMisses s < INT_MAX)%Z ->
  exists r',
    updateRover cfg new r = Ok (true, r') /\
    let s' := mRoverStatus r' in
    countLeftHits s' = 0%Z /\ countRightHits s' = 0%Z /\
    (if Qltb (cacheMissMax (nav cfg)) (inject_Z (countLeftMisses s + 1))
     then mCTargetLeft s' = emptyTarget /\ countLeftMisses s' = 0%Z
     else mCTargetLeft s' = mCTargetLeft s /\
          countLeftMisses s' = (countLeftMisses s + 1)%Z) /\
    (if Qltb (cacheMissMax (nav cfg)) (inject_Z (countRightMisses s + 1))
     then mCTargetRight s' = emptyTarget /\ countRightMisses s' = 0%Z
     else mCTargetRight s' = mCTargetRight s /\
          countRightMisses s' = (countRightMisses s + 1)%Z).
Proof.
  intros s Hold Hnew Hchanged Hleft Hlm Hrm.
  rewrite updateRover_on_on_changed by assumption.
  unfold bind. rewrite updateData_run.
  rewrite cacheTargets_undetected; [ | exact Hleft | exact Hlm | exact Hrm].
  subst s. destruct r as [s pid long out con]. members.
  destruct (Qltb (cacheMissMax (nav cfg)) (inject_Z (countLeftMisses s + 1)))
    eqn:HL;
    destruct (Qltb (cacheMissMax (nav cfg)) (inject_Z (countRightMisses s + 1)))
      eqn:HR;
    (eexists; split; [run_hyps; reflexivity | ]); members; repeat split.
Qed.

(** After every pass that returns, no miss count exceeds [cacheMissMax]
    (which is not negative): the miss counts stay bounded however many
    snapshots arrive. *)
Theorem updateRover_misses_bounded (r r' : Rover) (new : RoverStatus) (b : bool) :
  let s := mRoverStatus r in
  AutonState.is_auton (mAutonState s) = true ->
  AutonState.is_auton (mAutonState new) = true ->
  dataChanged s new = true ->
  0 <= cacheMissMax (nav cfg) ->
  updateRover cfg new r = Ok (b, r') ->
  inject_Z (countLeftMisses (mRoverStatus r')) <= cacheMissMax (nav cfg) /\
  inject_Z (countRightMisses (mRoverStatus r')) <= cacheMissMax (nav cfg).
Proof.
  intros s Hold Hnew Hchanged Hmax.
  rewrite updateRover_on_on_changed by assumption.
  unfold bind. rewrite updateData_run.
  destruct (cacheTargets cfg _) as [[[] r1] | ]; [ | discriminate].
  destruct (resetLeftCache_run cfg r1) as (r2 & H2 & Lreset & Lkeep & _ & _ & LR3).
  destruct (resetRightCache_run cfg r2) as (r3 & H3 & Rreset & Rkeep & _ & _ & RL3).
  cbv zeta in *. rewrite H2, H3. unfold ret. intro H. injection H as _ <-.
  rewrite RL3. split.
  - destruct (Qlt_le_dec (cacheMissMax (nav cfg))
                (inject_Z (countLeftMisses (mRoverStatus r1)))) as [Hm | Hm].
    + destruct (Lreset Hm) as (_ & _ & ->). exact Hmax.
    + rewrite (Lkeep Hm). exact Hm.
  - destruct (Qlt_le_dec (cacheMissMax (nav cfg))
                (inject_Z (countRightMisses (mRoverStatus r2)))) as [Hm | Hm].
    + destruct (Rreset Hm) as (_ & _ & ->). exact Hmax.
    + rewrite (Rkeep Hm). exact Hm.
Qed.

(** The left hit count has no upper limit of its own: a matching sighting
    with the count at [INT_MAX] increments it all the same, which is
    undefined. *)
Theorem updateRover_hits_overflow (r : Rover) (new : RoverStatus)
    (front : Waypoint.t) (rest : list Waypoint.t) :
  let s := mRoverStatus r in
  AutonState.is_auton (mAutonState s) = true ->
  AutonState.is_auton (mAutonState new) = true ->
  dataChanged s new = true ->
  Qeq_bool (Target.distance (mTargetLeft new)) (noTargetDist (nav cfg)) = false ->
  mPath s = front :: rest ->
  Target.id (mTargetLeft new) = Waypoint.id front ->
  countLeftHits s = INT_MAX ->
  updateRover cfg new r = UB SignedOverflow.
Proof.
  intros s Hold Hnew Hchanged Hleft Hpath Hid Hhits.
  rewrite updateRover_on_on_changed by assumption.
  unfold bind. rewrite updateData_run.
  subst s. destruct r as [s pid long out con]. cbn [mRoverStatus] in *.
  apply Z.eqb_eq in Hid.
  assert (Hover : (countLeftHits s <? INT_MAX)%Z = false)
    by (rewrite Hhits; reflexivity).
  run_hyps. reflexivity.
Qed.

End CacheProperties.

(** ** [operator=] on any course, and the target count *)

Section AssignProperties.

Context {ext : Externals}.
Variable cfg : RoverConfig.

Lemma firstn_skipn_cons {A} (l : list A) (i k : nat) (x : A) :
  nth_error l i = Some x ->
  firstn (S k) (skipn i l) = x :: firstn k (skipn (S i) l).
Proof.
  intro H. rewrite (skipn_nth_error _ _ H). reflexivity.
Qed.

(** The loop of [operator=] over the first [remaining] waypoints from
    [courseIndex] on, all of them inside the vector. *)
Lemma push_waypoints_prefix (remaining courseIndex : nat) (r : Rover) :
  let s := mRoverStatus r in
  let ws := Course.waypoints (mCourse s) in
  (remaining + courseIndex <= length ws)%nat ->
  (0 <= mPathTargets s < UINT_MODULUS)%Z ->
  push_waypoints remaining courseIndex r =
  Ok (tt,
      set_roverStatus
        (set_pathTargets
           ((mPathTargets s +
             countPathTargets (firstn remaining (skipn courseIndex ws)))
              mod UINT_MODULUS)%Z
           (set_path (mPath s ++ firstn remaining (skipn courseIndex ws)) s)) r).
Proof.
  revert courseIndex r.
  induction remaining as [ | k IH]; intros i r s ws Hlen Hrange.
  - cbn [push_waypoints firstn].
    change (countPathTargets []) with 0%Z.
    rewrite Z.add_0_r, Z.mod_small, app_nil_r by exact Hrange.
    subst s. destruct r as [[] pid long out con]. reflexivity.
  - cbn [push_waypoints].
    destruct (nth_error ws i) as [wp | ] eqn:Hnth.
    2: { apply nth_error_None in Hnth. lia. }
    rewrite (@firstn_skipn_cons _ ws i k wp Hnth).
    subst ws s. run. rewrite Hnth. run.
    fold (isPathTarget wp).
    rewrite countPathTargets_cons.
    assert (Hm : (0 < UINT_MODULUS)%Z) by reflexivity.
    destruct (isPathTarget wp); run; rewrite IH; run;
      try (cbn in Hlen |- *; lia);
      try (apply Z.mod_pos_bound; exact Hm);
      try exact Hrange.
    + rewrite Zplus_mod_idemp_l, <- app_assoc, Z.add_assoc. reflexivity.
    + rewrite <- app_assoc. reflexivity.
Qed.

(** The loop of [operator=] when the count reaches past the end of the
    vector. *)
Lemma push_waypoints_out_of_range (remaining courseIndex : nat) (r : Rover) :
  let ws := Course.waypoints (mCourse (mRoverStatus r)) in
  (courseIndex <= length ws)%nat ->
  (length ws < remaining + courseIndex)%nat ->
  push_waypoints remaining courseIndex r = UB IndexOutOfRange.
Proof.
  revert courseIndex r.
  induction remaining as [ | k IH]; intros i r ws Hi Hlen.
  - cbn in Hlen. lia.
  - cbn [push_waypoints]. unfold bind at 1, gets.
    fold ws. destruct (nth_error ws i) as [wp | ] eqn:Hnth; [ | reflexivity].
    assert (Hlt : (i < length ws)%nat)
      by (apply nth_error_Some; rewrite Hnth; discriminate).
    unfold bind at 1, modify at 1, modify_rover at 1.
    destruct (Waypoint.search wp || Waypoint.gate wp);
      unfold bind, modify, modify_rover, ret; apply IH;
      destruct r as [[] pid long out con]; subst ws; cbn in *; lia.
Qed.

(** On the transition from off to on, [operator=] copies the first
    [num_waypoints] waypoints of the course: for a count that stays
    inside the vector the path is that prefix, whatever the path was
    before, and the target count is the number of waypoints flagged
    [search] or [gate] in it; a count of zero or less gives an empty
    path. *)
Theorem updateRover_off_on_prefix (r : Rover) (new : RoverStatus) :
  let ws := Course.waypoints (mCourse new) in
  let n := Z.to_nat (Course.num_waypoints (mCourse new)) in
  AutonState.is_auton (mAutonState (mRoverStatus r)) = false ->
  AutonState.is_auton (mAutonState new) = true ->
  (Course.num_waypoints (mCourse new) <= Z.of_nat (length ws))%Z ->
  (Course.num_waypoints (mCourse new) <= INT_MAX)%Z ->
  exists r',
    updateRover cfg new r = Ok (true, r') /\
    mPath (mRoverStatus r') = firstn n ws /\
    mPathTargets (mRoverStatus r') = countPathTargets (firstn n ws) /\
    ((Course.num_waypoints (mCourse new) <= 0)%Z ->
     mPath (mRoverStatus r') = []).
Proof.
  intros ws n Hoff Hon Hlen Hmax.
  destruct r as [s pid long out con]. cbn in Hoff.
  assert (Hcount : (0 <= countPathTargets (firstn n ws) < UINT_MODULUS)%Z).
  { pose proof (countPathTargets_bounds (firstn n ws)) as Hc.
    pose proof (firstn_le_length n ws).
    assert (Z.of_nat n <= INT_MAX)%Z by (subst n; unfold INT_MAX in *; lia).
    unfold INT_MAX, UINT_MODULUS in *. lia. }
  eexists. split.
  { run. rewrite Hoff, Hon. run.
    rewrite push_waypoints_prefix; run.
    - reflexivity.
    - fold ws n. lia.
    - unfold UINT_MODULUS. lia. }
  members. rewrite pop_all_nil. cbn [app skipn]. fold ws n.
  rewrite Z.add_0_l, Z.mod_small by exact Hcount.
  repeat split.
  intro Hzero. replace n with 0%nat by (subst n; lia). reflexivity.
Qed.

(** On the transition from off to on, a course whose [num_waypoints]
    exceeds the length of its vector makes [operator=] index the vector
    past its end: the call is undefined. *)
Theorem updateRover_off_on_out_of_range (r : Rover) (new : RoverStatus) :
  AutonState.is_auton (mAutonState (mRoverStatus r)) = false ->
  AutonState.is_auton (mAutonState new) = true ->
  (Z.of_nat (length (Course.waypoints (mCourse new)))
     < Course.num_waypoints (mCourse new))%Z ->
  updateRover cfg new r = UB IndexOutOfRange.
Proof.
  intros Hoff Hon Hlen.
  destruct r as [s pid long out con]. cbn in Hoff.
  run. rewrite Hoff, Hon. run.
  rewrite push_waypoints_out_of_range; run; [reflexivity | lia | lia].
Qed.

(** The agreement of the target count with the path is kept by every call
    of [updateRover] that returns, for snapshots whose course is well
    formed: the transition from off to on establishes it, and no other
    call writes the path or the count. *)
Theorem updateRover_pathTargets_counted (r r' : Rover) (new : RoverStatus)
    (b : bool) :
  Course_wf (mCourse new) ->
  pathTargetsCounted (mRoverStatus r) ->
  updateRover cfg new r = Ok (b, r') ->
  pathTargetsCounted (mRoverStatus r').
Proof.
  intros Hwf Hinv Hrun. unfold pathTargetsCounted in *.
  destruct (AutonState.is_auton (mAutonState (mRoverStatus r))) eqn:Hold;
    destruct (AutonState.is_auton (mAutonState new)) eqn:Hnew.
  - destruct (dataChanged (mRoverStatus r) new) eqn:Hchanged.
    + rewrite updateRover_on_on_changed in Hrun by assumption.
      unfold bind at 1 in Hrun. rewrite updateData_run in Hrun.
      assert (b = true) as ->.
      { revert Hrun. unfold bind, ret.
        repeat (destruct (_ : result (unit * Rover)) as [[[] ?] | ];
                [ | discriminate]).
        congruence. }
      apply stabilization_frame in Hrun.
      destruct Hrun as ((_ & _ & _ & A4 & _ & _ & _ & _ & A9) & _).
      revert A4 A9. members. intros -> ->. exact Hinv.
    + rewrite updateRover_on_on_same in Hrun by assumption.
      injection Hrun as _ <-. exact Hinv.
  - rewrite updateRover_on_off in Hrun by assumption.
    injection Hrun as _ <-. exact Hinv.
  - rewrite updateRover_off_on in Hrun by assumption.
    injection Hrun as _ <-. reflexivity.
  - rewrite updateRover_off_off in Hrun by assumption.
    injection Hrun as _ <-. exact Hinv.
Qed.

End AssignProperties.

(** * The further properties on concrete runs *)

(** [drive( direction, bearing )] next to [drive( distance, bearing,
    target )] on the run of C5: both publish (1, 19/20). *)
Lemma drive_direction_publishes_witness :
  exists r' r1,
    drive_direction sampleConfig 1 25 roverOn = Ok (tt, r') /\
    drive sampleConfig 5 25 false roverOn = Ok (OnCourse, r1) /\
    lcm_published r1 = lcm_published r'.
Proof.
  destruct (@drive_direction_publishes sampleExternals sampleConfig roverOn 1 25)
    as (r' & Hrun & _ & _ & _ & Hsame).
  exists r', (stateAfter (drive sampleConfig 5 25 false) roverOn).
  assert (Hdrive : drive sampleConfig 5 25 false roverOn
                   = Ok (OnCourse,
                         stateAfter (drive sampleConfig 5 25 false) roverOn))
    by (vm_compute; reflexivity).
  split; [exact Hrun | ]. split; [exact Hdrive | ].
  apply (Hsame 5 false _ Hdrive).
Defined.

(** [updateRover_frame] on the third sighting of C2. *)
Lemma updateRover_frame_witness :
  let new := snapshot true sampleCourse 20 (post7 7) emptyTarget in
  updateRover sampleConfig new roverTwoHits = Ok (true, roverPromoted) /\
  lcm_published roverPromoted = lcm_published roverTwoHits /\
  mPath (mRoverStatus roverPromoted) = mPath (mRoverStatus roverTwoHits).
Proof.
  intro new.
  assert (Hrun : updateRover sampleConfig new roverTwoHits
                 = Ok (true, roverPromoted)) by (vm_compute; reflexivity).
  split; [exact Hrun | ].
  destruct (@updateRover_frame sampleExternals sampleConfig roverTwoHits
              roverPromoted new true Hrun) as (Hout & _ & _ & Hon).
  split; [exact Hout | ]. apply Hon. reflexivity.
Defined.

(** [updateRover_repeat] on the third sighting of C2: the same snapshot
    once more leaves the hit count at 3. *)
Lemma updateRover_repeat_witness :
  let new := snapshot true sampleCourse 20 (post7 7) emptyTarget in
  updateRover sampleConfig new roverTwoHits = Ok (true, roverPromoted) /\
  updateRover sampleConfig new roverPromoted = Ok (true, roverPromoted).
Proof.
  intro new.
  assert (Hrun : updateRover sampleConfig new roverTwoHits
                 = Ok (true, roverPromoted)) by (vm_compute; reflexivity).
  split; [exact Hrun | ].
  apply (@updateRover_repeat sampleExternals sampleConfig roverTwoHits
           roverPromoted new true Hrun).
Defined.


(** [updateRover_stop_restart] on the run of C8. *)
Lemma updateRover_stop_restart_witness :
  exists r1 r2,
    updateRover sampleConfig
      (snapshot false sampleCourse 20 (post7 8) emptyTarget) roverTwoHits =
    Ok (true, r1) /\
    updateRover sampleConfig
      (snapshot true sampleCourse 26 emptyTarget emptyTarget) r1 =
    Ok (true, r2) /\
    countLeftHits (mRoverStatus r2) = 2%Z.
Proof.
  destruct (@updateRover_stop_restart sampleExternals sampleConfig roverTwoHits
              (snapshot false sampleCourse 20 (post7 8) emptyTarget)
              (snapshot true sampleCourse 26 emptyTarget emptyTarget)
              eq_refl eq_refl eq_refl sampleCourse_wf)
    as (r1 & r2 & H1 & H2 & _ & _ & Hhits & _).
  exists r1, r2. split; [exact H1 | ]. split; [exact H2 | exact Hhits].
Defined.

(** [updateRover_right_target_cached] on a run: post 8 on the right is
    cached at its first sighting, next to the first sighting of post 7. *)
Lemma updateRover_right_target_cached_witness :
  exists r',
    updateRover sampleConfig
      (snapshot true sampleCourse 20 (post7 9) (post8 9)) roverOn =
    Ok (true, r') /\
    mCTargetRight (mRoverStatus r') = post8 9 /\
    countRightMisses (mRoverStatus r') = 0%Z.
Proof.
  destruct (@updateRover_right_target_cached sampleExternals sampleConfig
              roverOn (snapshot true sampleCourse 20 (post7 9) (post8 9))
              (waypoint 7 true)
              [waypoint 8 false; waypoint 9 false; waypoint 10 true;
               waypoint 11 false]
              eq_refl eq_refl eq_refl eq_refl eq_refl eq_refl eq_refl eq_refl)
    as (r' & Hrun & Hslot & Hmisses & _); [discriminate | ].
  exists r'. split; [exact Hrun | ]. split; [exact Hslot | exact Hmisses].
Defined.

(** [updateRover_no_left_target] on a run: after the promotion of post 7,
    a snapshot with post 8 on the right and nothing on the left counts a
    miss on both sides and does not cache post 8. *)
Lemma updateRover_no_left_target_witness :
  exists r',
    updateRover sampleConfig
      (snapshot true sampleCourse 21 emptyTarget (post8 9)) roverPromoted =
    Ok (true, r') /\
    countLeftHits (mRoverStatus r') = 0%Z /\
    mCTargetLeft (mRoverStatus r') = post7 7 /\
    countLeftMisses (mRoverStatus r') = 1%Z /\
    mCTargetRight (mRoverStatus r') = emptyTarget /\
    countRightMisses (mRoverStatus r') = 4%Z.
Proof.
  destruct (@updateRover_no_left_target sampleExternals sampleConfig
              roverPromoted
              (snapshot true sampleCourse 21 emptyTarget (post8 9))
              eq_refl eq_refl eq_refl eq_refl eq_refl eq_refl)
    as (r' & Hrun & Hhits & _ & Hleft & Hright).
  exists r'. split; [exact Hrun | ]. split; [exact Hhits | ].
  destruct Hleft as [Hslot Hmisses]. destruct Hright as [Hrslot Hrmisses].
  repeat split; assumption.
Defined.

(** [updateRover_misses_bounded] on the sixth miss of C3. *)
Lemma updateRover_misses_bounded_witness :
  let new := snapshot true sampleCourse 26 emptyTarget emptyTarget in
  let r' := stateAfter (updateRover sampleConfig new) roverFiveMisses in
  updateRover sampleConfig new roverFiveMisses = Ok (true, r') /\
  inject_Z (countLeftMisses (mRoverStatus r')) <= 5 /\
  inject_Z (countRightMisses (mRoverStatus r')) <= 5.
Proof.
  intros new r'.
  assert (Hrun : updateRover sampleConfig new roverFiveMisses = Ok (true, r'))
    by (vm_compute; reflexivity).
  split; [exact Hrun | ].
  apply (@updateRover_misses_bounded sampleExternals sampleConfig
           roverFiveMisses r' new true eq_refl eq_refl eq_refl);
    [discriminate | exact Hrun].
Defined.

(** [updateRover_hits_overflow] on a state with the left hit count at
    [INT_MAX]. *)
Lemma updateRover_hits_overflow_witness :
  countLeftHits (mRoverStatus roverHitsAtMax) = INT_MAX /\
  updateRover sampleConfig
    (snapshot true sampleCourse 20 (post7 7) emptyTarget) roverHitsAtMax =
  UB SignedOverflow.
Proof.
  split; [reflexivity | ].
  apply (@updateRover_hits_overflow sampleExternals sampleConfig roverHitsAtMax
           (snapshot true sampleCourse 20 (post7 7) emptyTarget)
           (waypoint 7 true)
           [waypoint 8 false; waypoint 9 false; waypoint 10 true;
            waypoint 11 false]);
    reflexivity.
Defined.

(** [updateRover_off_on_prefix] on a run: three waypoints announced as two
    give a path of the first two, with one target. *)
Lemma updateRover_off_on_prefix_witness :
  exists r',
    updateRover sampleConfig
      (snapshot true courseCountShort 20 emptyTarget emptyTarget) initialRover =
    Ok (true, r') /\
    mPath (mRoverStatus r') = [waypoint 7 true; waypoint 8 false] /\
    mPathTargets (mRoverStatus r') = 1%Z.
Proof.
  destruct (@updateRover_off_on_prefix sampleExternals sampleConfig initialRover
              (snapshot true courseCountShort 20 emptyTarget emptyTarget)
              eq_refl eq_refl)
    as (r' & Hrun & Hpath & Htargets & _).
  - cbn. lia.
  - unfold INT_MAX. cbn. lia.
  - exists r'. split; [exact Hrun | ]. split; [exact Hpath | exact Htargets].
Defined.

(** [updateRover_off_on_out_of_range] on a run: three waypoints announced
    as four. *)
Lemma updateRover_off_on_out_of_range_witness :
  updateRover sampleConfig
    (snapshot true courseCountLong 20 emptyTarget emptyTarget) initialRover =
  UB IndexOutOfRange.
Proof.
  apply (@updateRover_off_on_out_of_range sampleExternals sampleConfig
           initialRover
           (snapshot true courseCountLong 20 emptyTarget emptyTarget)
           eq_refl eq_refl).
  cbn. lia.
Defined.

(** [updateRover_pathTargets_counted] on the start of the sample run. *)
Lemma updateRover_pathTargets_counted_witness :
  pathTargetsCounted (mRoverStatus initialRover) /\
  updateRover sampleConfig
    (snapshot true sampleCourse 20 emptyTarget emptyTarget) initialRover =
  Ok (true, roverOn) /\
  pathTargetsCounted (mRoverStatus roverOn).
Proof.
  assert (Hinit : pathTargetsCounted (mRoverStatus initialRover))
    by reflexivity.
  assert (Hrun : updateRover sampleConfig
                   (snapshot true sampleCourse 20 emptyTarget emptyTarget)
                   initialRover = Ok (true, roverOn))
    by (vm_compute; reflexivity).
  split; [exact Hinit | ]. split; [exact Hrun | ].
  apply (@updateRover_pathTargets_counted sampleExternals sampleConfig
           initialRover roverOn
           (snapshot true sampleCourse 20 emptyTarget emptyTarget) true
           sampleCourse_wf Hinit Hrun).
Defined.
